(** * Flood dashboard: rolling observation window, rate of change and
      comparison against the historical 90th percentile.

    A shallow embedding of the pandas pipeline of the repository
    (fetch_data.py, analyze_rate_of_change.py, process_gauge_data.py,
    compare_to_p90.py, fetch_historical.py).

    - A DataFrame is a list of rows, in index order.
    - A float64 cell is a primitive binary64 float; the null of a float
      column is NaN, as in pandas.
    - A parsed timestamp is an instant in nanoseconds since the Unix epoch;
      a missing one (NaT) is [None].
    - A string cell that may be missing is an [option string]. *)

From Stdlib Require Import ZArith Floats Lia.
From stdpp Require Import base option list strings gmap sorting.

#[local] Set Warnings "-inexact-float".

Local Open Scope Z_scope.

(** ** IEEE-754 doubles as pandas uses them *)

Module F64.

Definition is_null (x : float) : bool := PrimFloat.is_nan x.

(** Both signed zeros compare equal to [0.0]. *)
Definition is_zero (x : float) : bool := PrimFloat.eqb x 0%float.

Definition is_inf (x : float) : bool := PrimFloat.is_infinity x.

End F64.

(** ** Rows and instants *)

(** One row of a DataFrame of the pipeline.  The first six columns are
    those that [fetch_va_iv_since] writes; [region] is added by
    [load_current_data], [day_of_year] by [prepare_current_data], and
    [derived] holds the float columns that are added by name
    ([pct_change_1h], ...). *)
Record Row := mkRow {
  site_no : option string;
  site_name : option string;
  timestamp_utc : option Z;
  flow_cfs : float;
  latitude : float;
  longitude : float;
  region : option string;
  day_of_year : option Z;
  derived : gmap string float;
}.

Definition set_derived (f : gmap string float → gmap string float)
    (r : Row) : Row :=
  mkRow (site_no r) (site_name r) (timestamp_utc r) (flow_cfs r)
        (latitude r) (longitude r) (region r) (day_of_year r)
        (f (derived r)).

Definition set_day_of_year (d : option Z) (r : Row) : Row :=
  mkRow (site_no r) (site_name r) (timestamp_utc r) (flow_cfs r)
        (latitude r) (longitude r) (region r) d (derived r).

Definition set_region (g : option string) (r : Row) : Row :=
  mkRow (site_no r) (site_name r) (timestamp_utc r) (flow_cfs r)
        (latitude r) (longitude r) g (day_of_year r) (derived r).

(** The row without its derived columns. *)
Definition without_derived (r : Row) : Row := set_derived (λ _, ∅) r.

(** An observation as read from the window file: no derived column yet. *)
Definition observation (s : string) (name : string) (t : Z) (q : float) : Row :=
  mkRow (Some s) (Some name) (Some t) q nan nan None None ∅.

Module Time.

Definition ns_per_second : Z := 1000000000.

(** [timedelta(seconds=s)] and [timedelta(hours=h)], in nanoseconds. *)
Definition seconds (s : Z) : Z := s * ns_per_second.
Definition hours (h : Z) : Z := h * 3600 * ns_per_second.
Definition minutes (m : Z) : Z := m * 60 * ns_per_second.
Definition days (d : Z) : Z := d * 86400 * ns_per_second.

Definition is_leap (y : Z) : bool :=
  ((y mod 4 =? 0) && negb (y mod 100 =? 0)) || (y mod 400 =? 0).

(** Days from 1970-01-01 to January 1st of year [y] (proleptic
    Gregorian calendar). *)
Definition days_before_year (y : Z) : Z :=
  let p := y - 1 in
  365 * (y - 1970) + (p / 4 - 1969 / 4) - (p / 100 - 1969 / 100)
    + (p / 400 - 1969 / 400).

(** The calendar year of a day count since the epoch: a first estimate
    that never overshoots (a year has 365 or 366 days) is advanced one
    year at a time. *)
Fixpoint year_from (fuel : nat) (y d : Z) : Z :=
  match fuel with
  | O => y
  | S n => if days_before_year (y + 1) <=? d then year_from n (y + 1) d
           else y
  end.

Definition year_of_day (d : Z) : Z :=
  let y0 := if d <? 0 then 1970 + d / 365 else 1970 + d / 366 in
  year_from (Z.to_nat (Z.abs d / 366 / 300 + 2)) y0 d.

(** [Series.dt.dayofyear] of a UTC instant, 1 to 366. *)
Definition dayofyear (t : Z) : Z :=
  let d := t / days 1 in
  d - days_before_year (year_of_day d) + 1.

(** Lexicographic "not after" on parsed timestamps, NaT last, the order
    [sort_values] uses (na_position = "last"). *)
Definition leb (a b : option Z) : bool :=
  match a, b with
  | Some x, Some y => x <=? y
  | _, None => true
  | None, Some _ => false
  end.

Definition compare (a b : option Z) : comparison :=
  match a, b with
  | Some x, Some y => x ?= y
  | Some _, None => Lt
  | None, Some _ => Gt
  | None, None => Eq
  end.

End Time.

(** ** DataFrame operations *)

Section Sorting.
Context {A : Type} (le : A → A → bool).

Fixpoint insert_by (x : A) (l : list A) : list A :=
  match l with
  | [] => [x]
  | y :: l' => if le x y then x :: l else y :: insert_by x l'
  end.

(** A stable sort: equal keys keep the order they had. *)
Definition stable_sort (l : list A) : list A := foldr insert_by [] l.

End Sorting.

Module Frame.

Definition site_compare (a b : option string) : comparison :=
  match a, b with
  | Some x, Some y => String.compare x y
  | Some _, None => Lt
  | None, Some _ => Gt
  | None, None => Eq
  end.

(** The order of [sort_values(["site_no", "timestamp_utc"])]: by site,
    then by timestamp, nulls last in each column. *)
Definition site_time_leb (r1 r2 : Row) : bool :=
  match site_compare (site_no r1) (site_no r2) with
  | Lt => true
  | Eq => Time.leb (timestamp_utc r1) (timestamp_utc r2)
  | Gt => false
  end.

Definition time_leb (r1 r2 : Row) : bool :=
  Time.leb (timestamp_utc r1) (timestamp_utc r2).

(** Sorting on several columns is a stable lexicographic sort. *)
Definition sort_values_site_time (df : list Row) : list Row :=
  stable_sort site_time_leb df.

(** What [sort_values("timestamp_utc")] guarantees.  On one column
    pandas sorts with an unstable quicksort: the result is some
    permutation in timestamp order, and rows of equal timestamp may
    come out in any order. *)
Definition timestamp_sorter (sorter : list Row → list Row) : Prop :=
  ∀ df, sorter df ≡ₚ df ∧ Sorted (λ r1 r2, time_leb r1 r2 = true) (sorter df).

(** One such sort, used to run the pipeline. *)
Definition sort_values_time (df : list Row) : list Row :=
  stable_sort time_leb df.

(** The rows of one site, in frame order: a group of
    [groupby("site_no")]. *)
Definition group_of (k : string) (df : list Row) : list Row :=
  filter (λ r, site_no r = Some k) df.

Definition flows (df : list Row) : list float := flow_cfs <$> df.

(** [x.shift(w)]: every value moves [w] places down, the first [w]
    places become null, the length is kept. *)
Definition shift (w : nat) (x : list float) : list float :=
  take (length x) (replicate w nan ++ x).

(** One cell of [groupby("site_no")["flow_cfs"].transform(f)]: [f] is
    applied to the whole group of the row and the cell is read at the
    rank of the row inside its group.  A row without site belongs to
    no group and gets null. *)
Definition transform_cell (f : list float → list float)
    (whole seen : list Row) (r : Row) : float :=
  match site_no r with
  | None => nan
  | Some k =>
      default nan (f (flows (group_of k whole)) !! length (group_of k seen))
  end.

Fixpoint transform_go (f : list float → list float)
    (whole seen rest : list Row) : list float :=
  match rest with
  | [] => []
  | r :: rest' =>
      transform_cell f whole seen r
        :: transform_go f whole (seen ++ [r]) rest'
  end.

(** The transformed column, aligned with the index of the frame. *)
Definition transform (f : list float → list float) (df : list Row)
    : list float :=
  transform_go f df [] df.

(** [df[name] = col] *)
Definition assign (name : string) (col : list float) (df : list Row)
    : list Row :=
  zip_with (λ r v, set_derived (<[name := v]>) r) df col.

(** What [df[name] = df.groupby("site_no")["flow_cfs"].transform(f)]
    does to one group [g]: row [j] of the group receives cell [j] of
    [f] applied to the flows of the group ([group_of_assign_transform]
    below). *)
Definition assign_group (name : string) (f : list float → list float)
    (g : list Row) : list Row :=
  zip_with (λ r v, set_derived (<[name := v]>) r) g
    ((λ j, default nan (f (flows g) !! j)) <$> seq 0 (length g)).

(** [groupby("site_no", as_index=False).tail(1)]: the last row of every
    group, in frame order; rows without site are left out. *)
Fixpoint groupby_tail1 (df : list Row) : list Row :=
  match df with
  | [] => []
  | r :: rest =>
      match site_no r with
      | None => groupby_tail1 rest
      | Some k =>
          if decide (group_of k rest = []) then r :: groupby_tail1 rest
          else groupby_tail1 rest
      end
  end.

End Frame.

(** ** Rate of change (analyze_rate_of_change.py, process_gauge_data.py) *)

Module RateOfChange.
Import Frame.

(** 5-minute samples: 12 per hour. *)
Definition WINDOWS : list (string * nat) :=
  [("1h", 12%nat); ("3h", 36%nat); ("6h", 72%nat)].

(** The lambda under [transform]:
    [(x - x.shift(window)) / x.shift(window) * 100]. *)
Definition pct_change (window : nat) (x : list float) : list float :=
  zip_with (λ a b, (a - b) / b * 100)%float x (shift window x).

Definition column_name (label : string) : string := "pct_change_" +:+ label.

(** The loop over [WINDOWS.items()]. *)
Definition add_pct_changes (df : list Row) : list Row :=
  foldl (λ df '(label, window),
           assign (column_name label) (transform (pct_change window) df) df)
        df WINDOWS.

End RateOfChange.

(** process_gauge_data.py *)
Module Process.
Import Frame.

Definition compute_rate_of_change (df : list Row) : list Row :=
  RateOfChange.add_pct_changes (sort_values_site_time df).

End Process.

(** analyze_rate_of_change.py *)
Module Analyze.
Import Frame.

(** A row of the rate-of-change file: the columns of [keep_cols]. *)
Record Result := mkResult {
  r_site_no : option string;
  r_site_name : option string;
  r_timestamp_utc : option Z;
  r_flow_cfs : float;
  r_pct_change_1h : float;
  r_pct_change_3h : float;
  r_pct_change_6h : float;
}.

Definition column (name : string) (r : Row) : float :=
  default nan (derived r !! name).

Definition keep_cols (r : Row) : Result :=
  mkResult (site_no r) (site_name r) (timestamp_utc r) (flow_cfs r)
           (column "pct_change_1h" r) (column "pct_change_3h" r)
           (column "pct_change_6h" r).

(** The frame before the columns are selected: the most recent record
    of each site. *)
Definition latest_with (sorter : list Row → list Row) (df : list Row)
    : list Row :=
  groupby_tail1
    (sorter (RateOfChange.add_pct_changes (sort_values_site_time df))).

Definition compute_rate_of_change_with (sorter : list Row → list Row)
    (df : list Row) : list Result :=
  keep_cols <$> latest_with sorter df.

Definition compute_rate_of_change (df : list Row) : list Result :=
  compute_rate_of_change_with sort_values_time df.

End Analyze.

(** ** The baseline table and the comparison (compare_to_p90.py) *)

(** A row of historical_p90.csv. *)
Record Baseline := mkBaseline {
  b_site_no : option string;
  b_site_name : option string;
  b_north_south : option string;
  b_day_of_year : option Z;
  p90_flow_cfs : float;
}.

Module Join.

Definition join_key (r : Row) : option string * option Z :=
  (site_no r, day_of_year r).

Definition baseline_key (b : Baseline) : option string * option Z :=
  (b_site_no b, b_day_of_year b).

(** The baseline rows that carry the key of a current row, in table
    order. *)
Definition matches (r : Row) (hist : list Baseline) : list Baseline :=
  filter (λ b, baseline_key b = join_key r) hist.

(** [pd.merge(df_current, df_hist, how="left",
    on=["site_no", "day_of_year"])]: the left rows in their order, each
    once per matching right row, and once with nulls on the right when
    no right row matches. *)
Definition merge_left (cur : list Row) (hist : list Baseline)
    : list (Row * option Baseline) :=
  r ← cur;
  match matches r hist with
  | [] => [(r, None)]
  | bs => (λ b, (r, Some b)) <$> bs
  end.

(** The column [p90_flow_cfs] of a merged row. *)
Definition merged_p90 (ob : option Baseline) : float :=
  from_option p90_flow_cfs nan ob.

(** [prepare_current_data], the same function in compare_to_p90.py and
    process_gauge_data.py: the day of the year of the timestamp is
    added, and the rows where it, the flow or the site is null are
    dropped. *)
Definition prepare_current_data (df : list Row) : list Row :=
  filter (λ r, is_Some (day_of_year r) ∧ F64.is_null (flow_cfs r) = false
               ∧ is_Some (site_no r))
    ((λ r, set_day_of_year (Time.dayofyear <$> timestamp_utc r) r) <$> df).

End Join.

Module Compare.
Import Join.

(** A row of high_flow_summary.csv. *)
Record Comparison := mkComparison {
  c_site_no : option string;
  c_site_name : option string;
  c_timestamp_utc : option Z;
  c_flow_cfs : float;
  c_p90_flow_cfs : float;
  c_ratio : float;
  c_high_flow : bool;
  c_region : option string;
}.

(** The columns that a result row takes from the current frame. *)
Definition current_columns (r : Row) :=
  (site_no r, site_name r, timestamp_utc r, flow_cfs r, region r).

Definition result_columns (c : Comparison) :=
  (c_site_no c, c_site_name c, c_timestamp_utc c, c_flow_cfs c, c_region c).

(** A reading that [prepare_current_data] keeps. *)
Definition complete (r : Row) : Prop :=
  is_Some (timestamp_utc r) ∧ F64.is_null (flow_cfs r) = false
  ∧ is_Some (site_no r).

(** The region files that exist are read, tagged and concatenated. *)
Definition load_current_data (north south : option (list Row)) : list Row :=
  from_option (fmap (set_region (Some "north"))) [] north
  ++ from_option (fmap (set_region (Some "south"))) [] south.

Definition prepare_current_data := Join.prepare_current_data.

(** Ratio and flag of one merged row.  Both frames carry [site_name];
    the name of the current frame is the one that is kept. *)
Definition compare_row (m : Row * option Baseline) : Comparison :=
  let p90 := merged_p90 m.2 in
  let ratio := (flow_cfs m.1 / p90)%float in
  mkComparison (site_no m.1) (site_name m.1) (timestamp_utc m.1)
    (flow_cfs m.1) p90 ratio (1 <=? ratio)%float (region m.1).

Definition compare_to_historical (df_current : list Row)
    (df_hist : list Baseline) : list Comparison :=
  compare_row <$> merge_left df_current df_hist.

(** [main]: nothing is written when no current row is loaded, or when
    the baseline file is missing or empty. *)
Definition main (north south : option (list Row))
    (hist : option (list Baseline)) : option (list Comparison) :=
  match load_current_data north south, hist with
  | [], _ | _, None | _, Some [] => None
  | df_current, Some df_hist =>
      Some (compare_to_historical (prepare_current_data df_current) df_hist)
  end.

End Compare.

(** The comparison of process_gauge_data.py. *)
Module ProcessCompare.
Import Join.

Record Processed := mkProcessed {
  p_row : Row;
  p_p90_flow_cfs : float;
  p_percentile : float;
}.

Definition compare_to_historical (df_current : list Row)
    (df_hist : list Baseline) : list Processed :=
  (λ m, mkProcessed m.1 (merged_p90 m.2)
          (flow_cfs m.1 / merged_p90 m.2)%float)
    <$> merge_left df_current df_hist.

End ProcessCompare.

(** ** The rolling window (fetch_data.py) *)

Module Store.

(** [df["timestamp_utc"].max()]: nulls are skipped, and the maximum of
    no timestamp is NaT. *)
Definition max_timestamp (df : list Row) : option Z :=
  foldr (λ r acc, match timestamp_utc r, acc with
                  | Some t, Some m => Some (Z.max t m)
                  | Some t, None => Some t
                  | None, _ => acc
                  end) None df.

(** [file] is the content of the window file, [None] when the file does
    not exist; [now] is the clock. *)
Definition load_last_timestamp (now : Z) (file : option (list Row))
    : option Z :=
  match file with
  | Some df =>
      (* Add 1 second to avoid duplicate *)
      (λ last_time, last_time + Time.seconds 1) <$> max_timestamp df
  | None => Some (now - Time.hours 24)
  end.

(** [timestamp >= cutoff_time]; a comparison with NaT is false. *)
Definition not_before (cutoff_time : Z) (t : option Z) : bool :=
  match t with
  | Some x => cutoff_time <=? x
  | None => false
  end.

(** The rows that [append_and_trim] writes to the file. *)
Definition append_and_trim (now : Z) (df_new : list Row)
    (file : option (list Row)) (hours : Z) : list Row :=
  let cutoff_time := now - Time.hours hours in
  let df_all := match file with
                | Some df_old => df_old ++ df_new
                | None => df_new
                end in
  filter (λ r, not_before cutoff_time (timestamp_utc r) = true) df_all.

(** [main]: the clock is read once to load and once to append; [fetch]
    is the web service; the result is the file afterwards. *)
Definition main (now_load now_append : Z) (fetch : option Z → list Row)
    (file : option (list Row)) : option (list Row) :=
  let last_time := load_last_timestamp now_load file in
  match fetch last_time with
  | [] => file
  | df => Some (append_and_trim now_append df file 24)
  end.

Definition store_key (r : Row) : option string * option Z :=
  (site_no r, timestamp_utc r).

(** The number of stored rows of one (site, timestamp) key. *)
Definition rows_of_key (k : option string * option Z) (df : list Row) : nat :=
  length (filter (λ r, store_key r = k) df).

End Store.

(** ** The historical baseline (fetch_historical.py) *)

Module Historical.

(** One element of [ts["values"][0]["value"]] of the web service. *)
Record DailyValue := mkDailyValue {
  dv_value : option string;
  dv_dateTime : string;
}.

(** One element of [j["value"]["timeSeries"]]. *)
Record TimeSeries := mkTimeSeries {
  ts_site_no : string;
  ts_site_name : string;
  ts_latitude : float;
  ts_values : list DailyValue;
}.

(** A row of the frame that [fetch_va_dv_chunk] returns. *)
Record DailyRow := mkDailyRow {
  d_site_no : string;
  d_site_name : string;
  d_date : string;
  d_flow_cfs : float;
  d_lat : float;
}.

Definition LATITUDE_MIDPOINT : float := 37.5%float.

Definition north_south (lat : float) : string :=
  if (LATITUDE_MIDPOINT <=? lat)%float then "north" else "south".

Definition Key : Type := string * string * string * Z.

Definition key_compare (a b : Key) : comparison :=
  let '(s1, n1, r1, d1) := a in
  let '(s2, n2, r2, d2) := b in
  match String.compare s1 s2 with
  | Eq => match String.compare n1 n2 with
          | Eq => match String.compare r1 r2 with
                  | Eq => d1 ?= d2
                  | c => c
                  end
          | c => c
          end
  | c => c
  end.

Definition key_leb (a b : Key) : bool :=
  match key_compare a b with Gt => false | _ => true end.

Section WithLibrary.

(** Python's [float(s)] on a string; [None] when it raises
    [ValueError]. *)
Variable float_of_string : string → option float.

(** [pd.to_datetime(date).dayofyear] on a date string; [None] when
    the date does not parse and pandas raises. *)
Variable dayofyear_of_date : string → option Z.

(** [Series.quantile(q)] of pandas on the flows of one group (linear
    interpolation). *)
Variable quantile : float → list float → float.

(** The flow that the loop reads in one daily value; [None] on the two
    [continue] branches. *)
Definition numeric_value (v : DailyValue) : option float :=
  match dv_value v with
  | None => None
  | Some val_str =>
      if decide (val_str = "" ∨ val_str = "Ice") then None
      else float_of_string val_str
  end.

Definition daily_row (ts : TimeSeries) (v : DailyValue) : option DailyRow :=
  flow ← numeric_value v;
  Some (mkDailyRow (ts_site_no ts) (ts_site_name ts)
          (String.substring 0 10 (dv_dateTime v)) flow (ts_latitude ts)).

(** The rows built from the response [j] of the web service. *)
Definition fetch_va_dv_chunk (j : list TimeSeries) : list DailyRow :=
  ts ← j; omap (daily_row ts) (ts_values ts).

Definition group_key (r : DailyRow) (day : Z) : Key :=
  (d_site_no r, d_site_name r, north_south (d_lat r), day).

Definition with_day (r : DailyRow) : option (DailyRow * Z) :=
  day ← dayofyear_of_date (d_date r); Some (r, day).

(** The group key of a reading, when its date parses. *)
Definition key_of (r : DailyRow) : option Key :=
  group_key r <$> dayofyear_of_date (d_date r).

(** The readings of one group, in frame order. *)
Definition readings_of (k : Key) (df : list DailyRow) : list DailyRow :=
  filter (λ r, key_of r = Some k) df.

(** The rows of one group, in frame order. *)
Definition group_rows (k : Key) (rows : list (DailyRow * Z))
    : list (DailyRow * Z) :=
  filter (λ p, group_key p.1 p.2 = k) rows.

Definition baseline_entry (rows : list (DailyRow * Z)) (k : Key)
    : Baseline :=
  let '(site, name, side, day) := k in
  mkBaseline (Some site) (Some name) (Some side) (Some day)
    (quantile 0.9 ((d_flow_cfs ∘ fst) <$> group_rows k rows)).

(** [compute_p90_by_day]: one row per group key that occurs, in key
    order; [None] when a date does not parse. *)
Definition compute_p90_by_day (df : list DailyRow)
    : option (list Baseline) :=
  rows ← mapM with_day df;
  Some (baseline_entry rows
          <$> stable_sort key_leb
                (remove_dups ((λ p, group_key p.1 p.2) <$> rows))).

End WithLibrary.

End Historical.

(** The scenario of the specification: 72 samples of flow 10 at 5-minute
    spacing, then one sample of flow 15. *)
Definition series_X1 : list Row :=
  ((λ i : nat, observation "X1" "Gauge X1" (Time.minutes (5 * Z.of_nat i)) 10)
     <$> seq 0 72)
  ++ [observation "X1" "Gauge X1" (Time.minutes (5 * 72)) 15].


(** Twelve samples of flow 0, then one of flow 5. *)
Definition series_dry : list Row :=
  ((λ i : nat, observation "X1" "Gauge X1" (Time.minutes (5 * Z.of_nat i)) 0)
     <$> seq 0 12)
  ++ [observation "X1" "Gauge X1" (Time.minutes (5 * 12)) 5].

(** Readings of 18 July 2024, day 200 of the year, and baseline tables. *)
Definition noon_day_200 : Z := Time.seconds 1721304000.

Definition reading (site : string) (t : Z) (q : float) : Row :=
  observation site ("Gauge " +:+ site) t q.

Definition baseline (site : string) (day : Z) (p90 : float) : Baseline :=
  mkBaseline (Some site) (Some ("Gauge " +:+ site)) (Some "north") (Some day) p90.

(** A response of the daily-values service with one site: two numeric
    readings and two that are not, and the library functions on the
    strings that occur in it. *)
Definition sample_response : list Historical.TimeSeries :=
  [Historical.mkTimeSeries "X1" "Gauge X1" 38.5
     [Historical.mkDailyValue (Some "12.5") "2005-03-14T00:00:00.000";
      Historical.mkDailyValue (Some "Ice") "2005-03-15T00:00:00.000";
      Historical.mkDailyValue (Some "30") "2006-03-14T00:00:00.000";
      Historical.mkDailyValue None "2006-03-15T00:00:00.000"]].

Definition sample_float_of_string (s : string) : option float :=
  if decide (s = "12.5") then Some 12.5%float
  else if decide (s = "30") then Some 30%float
  else None.

Definition sample_dayofyear_of_date (d : string) : option Z :=
  if decide (d = "2005-03-14") then Some 73
  else if decide (d = "2006-03-14") then Some 73
  else if decide (d = "2005-03-15") then Some 74
  else if decide (d = "2006-03-15") then Some 74
  else None.

(** A stand-in for the quantile on the example: the largest flow. *)
Definition sample_quantile (q : float) (x : list float) : float :=
  foldr (λ a m, if (m <=? a)%float then a else m) neg_infinity x.

(** ** More of fetch_data.py and fetch_last24.py: request and response *)

Module Fetch.

(** [strftime("%Y-%m-%dT%H:%M")]: the instant as the request carries it,
  without its seconds. *)
Definition to_minute (t : Z) : Z := t - t mod Time.minutes 1.

(** The [startDT] and [endDT] of the request of [fetch_va_iv_since]. *)
Definition request_window (start_time end_time : Z) : Z * Z :=
(to_minute start_time, to_minute end_time).

(** One element of [ts["values"][0]["value"]] of the instantaneous-values
  service. *)
Record Value := mkValue {
v_value : option string;
v_dateTime : string;
}.

(** One element of [j["value"]["timeSeries"]]. *)
Record Series := mkSeries {
s_site_no : string;
s_site_name : string;
s_latitude : float;
s_longitude : float;
s_values : list Value;
}.

(** A row of the frame that [fetch_va_iv_since] returns; the timestamp is
  still the string of the service. *)
Record Reading := mkReading {
f_site_no : string;
f_site_name : string;
f_timestamp : string;
f_flow_cfs : float;
f_latitude : float;
f_longitude : float;
}.

(** A row of the frame that [fetch_va_iv_last24] returns. *)
Record Reading24 := mkReading24 {
g_site_no : string;
g_site_name : string;
g_timestamp : string;
g_flow_cfs : float;
g_north_south : string;
}.

(** A row of a region file of [save_north_south]: the label is dropped. *)
Record Saved24 := mkSaved24 {
h_site_no : string;
h_site_name : string;
h_timestamp : string;
h_flow_cfs : float;
}.

Definition LATITUDE_MIDPOINT : float := 37.5%float.

Section WithFloat.

(** Python's [float(s)] on a string; [None] when it raises [ValueError]. *)
Variable float_of_string : string → option float.

(** [try: flow = float(v["value"]) except (TypeError, ValueError): flow =
None]; a null value raises [TypeError]. *)
Definition flow_of (v : Value) : float :=
default nan (v_value v ≫= float_of_string).

(** The rows built from the response [j]. *)
Definition fetch_va_iv_since (j : list Series) : list Reading :=
ts ← j;
(λ v, mkReading (s_site_no ts) (s_site_name ts) (v_dateTime v) (flow_of v)
      (s_latitude ts) (s_longitude ts)) <$> s_values ts.

Definition fetch_va_iv_last24 (j : list Series) : list Reading24 :=
ts ← j;
(λ v, mkReading24 (s_site_no ts) (s_site_name ts) (v_dateTime v) (flow_of v)
      (if (LATITUDE_MIDPOINT <=? s_latitude ts)%float
       then "north" else "south")) <$> s_values ts.

End WithFloat.

Definition drop_label (r : Reading24) : Saved24 :=
mkSaved24 (g_site_no r) (g_site_name r) (g_timestamp r) (g_flow_cfs r).

(** [save_north_south]: the two files that are written, or nothing when
  the frame is empty. *)
Definition save_north_south (df : list Reading24)
  : option (list Saved24 * list Saved24) :=
match df with
| [] => None
| _ => Some (drop_label <$> filter (λ r, g_north_south r = "north") df,
             drop_label <$> filter (λ r, g_north_south r = "south") df)
end.

End Fetch.

(** ** The update log (update_data.py) *)

Module UpdateLog.

Definition MAX_LOG_RECORDS : nat := 100.

(** [df.tail(n)]: the last [n] rows. *)
Definition tail {A : Type} (n : nat) (l : list A) : list A :=
drop (length l - n) l.

(** The log that [log_update] writes at instant [timestamp]; [file] is
  the log on disk, [None] when there is none. *)
Definition log_update (timestamp : Z) (file : option (list Z)) : list Z :=
tail MAX_LOG_RECORDS (from_option id [] file ++ [timestamp]).

End UpdateLog.

(** ** The chunks of the historical download (fetch_historical.py) *)

Module HistoricalFetch.

Definition YEARS_BACK : Z := 20.

(** The loop [while cur_start < end_date] of [fetch_historical_data]: the
  date ranges that are requested, in order.  [span] is
  [timedelta(days=chunk_years * 365)].  [None] when [fuel] iterations do
  not reach the end of the loop. *)
Fixpoint chunk_ranges (fuel : nat) (cur_start end_date span : Z)
  : option (list (Z * Z)) :=
match fuel with
| O => if cur_start <? end_date then None else Some []
| S n =>
    if cur_start <? end_date then
      let cur_end := Z.min (cur_start + span) end_date in
      cons (cur_start, cur_end)
        <$> chunk_ranges n (cur_end + Time.days 1) end_date span
    else Some []
end.

(** What the loop requests from [a] on: nothing when [a] is not before
  the end; else ranges that start at [a], each ending at its start plus
  the span or at the end date, whichever is earlier, each next one
  starting a day after the previous end, the last one ending less than
  a day before the end date or at it. *)
Definition chained (a end_date span : Z) (l : list (Z * Z)) : Prop :=
(l = [] ↔ end_date ≤ a)
∧ (∀ c, head l = Some c → c.1 = a)
∧ Forall (λ c, c.1 < end_date ∧ c.2 = Z.min (c.1 + span) end_date) l
∧ (∀ (i : nat) c c', l !! i = Some c → l !! S i = Some c' →
                     c'.1 = c.2 + Time.days 1)
∧ (∀ c, last l = Some c → end_date - Time.days 1 ≤ c.2 ≤ end_date).

(** Iterations that suffice when the chunks do not run backwards. *)
Definition enough_fuel (start_date end_date : Z) : nat :=
Z.to_nat ((end_date - start_date) / Time.days 1 + 1).

(** [fetch_historical_data]: [fetch] is [fetch_va_dv_chunk] with the web
  service behind it, [now] the clock; the frames of the chunks are
  concatenated (an empty one adds nothing). *)
Definition fetch_historical_data {A : Type} (fetch : Z → Z → list A)
  (now years_back chunk_years : Z) : option (list A) :=
let end_date := now in
let start_date := end_date - Time.days (years_back * 365) in
ranges ← chunk_ranges (enough_fuel start_date end_date) start_date end_date
           (Time.days (chunk_years * 365));
Some (ranges ≫= λ c, fetch c.1 c.2).

End HistoricalFetch.

(** The key columns of the baseline entry of a group. *)
Definition entry_key (k : Historical.Key)
    : option string * option string * option string * option Z :=
  let '(site, name, side, day) := k in
  (Some site, Some name, Some side, Some day).

(** ** The last row of each group, on any frame *)

Section LastBy.
Context {A : Type} (key : A → option string).

(** [groupby(key).tail(1)]: the last row of every group, in frame order;
  rows with a null key are left out. *)
Fixpoint last_by (l : list A) : list A :=
match l with
| [] => []
| x :: rest =>
    match key x with
    | None => last_by rest
    | Some k =>
        if decide (Forall (λ y, key y ≠ Some k) rest)
        then x :: last_by rest
        else last_by rest
    end
end.

End LastBy.

(** ** The whole of process_gauge_data.py *)

Module ProcessMain.
Import ProcessCompare.

(** A row of gauge_data_processed.csv: the columns of [columns]. *)
Record Output := mkOutput {
o_site_no : option string;
o_site_name : option string;
o_timestamp_utc : option Z;
o_flow_cfs : float;
o_pct_change_1h : float;
o_pct_change_3h : float;
o_pct_change_6h : float;
o_percentile : float;
o_longitude : float;
o_latitude : float;
}.

Definition select (p : Processed) : Output :=
let r := p_row p in
mkOutput (site_no r) (site_name r) (timestamp_utc r) (flow_cfs r)
  (Analyze.column "pct_change_1h" r) (Analyze.column "pct_change_3h" r)
  (Analyze.column "pct_change_6h" r) (p_percentile p)
  (longitude r) (latitude r).

Definition merged_time_leb (p1 p2 : Processed) : bool :=
Frame.time_leb (p_row p1) (p_row p2).

(** What [sort_values("timestamp_utc")] guarantees on the merged frame. *)
Definition merged_sorter (sorter : list Processed → list Processed) : Prop :=
∀ df, sorter df ≡ₚ df
      ∧ Sorted (λ p1 p2, merged_time_leb p1 p2 = true) (sorter df).

Definition sort_merged (df : list Processed) : list Processed :=
stable_sort merged_time_leb df.

(** The frame before the most recent record of each gauge is taken;
  without baseline file the percentile is null. *)
Definition final_frame (df : list Row) (hist : option (list Baseline))
  : list Processed :=
let df_current :=
  Join.prepare_current_data (Process.compute_rate_of_change df) in
match hist with
| Some df_hist => compare_to_historical df_current df_hist
| None => (λ r, mkProcessed r nan nan) <$> df_current
end.

(** [main]: [gauge] is the window file and [hist] the baseline file,
  [None] when they do not exist; the result is the file that is
  written, [None] when the run stops before. *)
Definition main (sorter : list Processed → list Processed)
  (gauge : option (list Row)) (hist : option (list Baseline))
  : option (list Output) :=
match gauge with
| None => None
| Some [] => None
| Some df =>
    Some (select
            <$> last_by (site_no ∘ p_row) (sorter (final_frame df hist)))
end.

End ProcessMain.

(** ** The report of compare_to_p90.py *)


(** ** The files and one update (update_data.py) *)

Module Pipeline.

(** The files of the data directory that the update touches or reads,
  [None] for a file that does not exist: data/gauge_data.csv,
  data/north_va.csv, data/south_va.csv, data/historical_p90.csv,
  data/derived/north_va_rate_of_change.csv,
  data/derived/south_va_rate_of_change.csv, data/high_flow_summary.csv
  and update_log.csv. *)
Record Files := mkFiles {
gauge_data : option (list Row);
north_va : option (list Row);
south_va : option (list Row);
historical_p90 : option (list Baseline);
north_rate : option (list Analyze.Result);
south_rate : option (list Analyze.Result);
high_flow_summary : option (list Compare.Comparison);
update_log : option (list Z);
}.

(** What one update reads from outside: the clock at the three places
  where it is read, and the web service. *)
Record World := mkWorld {
now_load : Z;
now_append : Z;
now_log : Z;
service : option Z → list Row;
}.

(** [main] of fetch_data.py *)
Definition fetch_data_main (w : World) (fs : Files) : Files :=
mkFiles (Store.main (now_load w) (now_append w) (service w) (gauge_data fs))
  (north_va fs) (south_va fs) (historical_p90 fs)
  (north_rate fs) (south_rate fs) (high_flow_summary fs) (update_log fs).

(** One pass of the loop of [main] of analyze_rate_of_change.py: a
  missing or empty region file is skipped. *)
Definition rate_of_region (sorter : list Row → list Row)
  (file : option (list Row)) (out : option (list Analyze.Result))
  : option (list Analyze.Result) :=
match file with
| None => out
| Some [] => out
| Some df => Some (Analyze.compute_rate_of_change_with sorter df)
end.

Definition rate_of_change_main (sorter : list Row → list Row) (fs : Files)
  : Files :=
mkFiles (gauge_data fs) (north_va fs) (south_va fs) (historical_p90 fs)
  (rate_of_region sorter (north_va fs) (north_rate fs))
  (rate_of_region sorter (south_va fs) (south_rate fs))
  (high_flow_summary fs) (update_log fs).

(** [main] of compare_to_p90.py *)
Definition compare_main (fs : Files) : Files :=
mkFiles (gauge_data fs) (north_va fs) (south_va fs) (historical_p90 fs)
  (north_rate fs) (south_rate fs)
  (match Compare.main (north_va fs) (south_va fs) (historical_p90 fs) with
   | Some out => Some out
   | None => high_flow_summary fs
   end)
  (update_log fs).

Definition log_update (w : World) (fs : Files) : Files :=
mkFiles (gauge_data fs) (north_va fs) (south_va fs) (historical_p90 fs)
  (north_rate fs) (south_rate fs) (high_flow_summary fs)
  (Some (UpdateLog.log_update (now_log w) (update_log fs))).

(** [update]: fetch, rate of change, comparison, log. *)
Definition update (sorter : list Row → list Row) (w : World) (fs : Files)
  : Files :=
log_update w (compare_main (rate_of_change_main sorter (fetch_data_main w fs))).

(** Updates in a row, each with its own readings of the outside. *)
Definition updates (sorter : list Row → list Row) (ws : list World)
  (fs : Files) : Files :=
foldl (λ fs w, update sorter w fs) fs ws.

End Pipeline.

(** * Properties *)

(** ** Facts on doubles *)

Module F64_facts.
Import F64.

Lemma prim_nan : Prim2SF nan = S754_nan.
Proof. reflexivity. Qed.

Lemma SF_nan_eq (x : float) : Prim2SF x = S754_nan → x = nan.
Proof. intros H. apply Prim2SF_inj. by rewrite H. Qed.

Lemma SFcompare_refl (s : spec_float) :
  s ≠ S754_nan → SFcompare s s = Some Eq.
Proof.
  destruct s as [b|b| |b m e]; simpl; try done.
  - by destruct b.
  - intros _. rewrite Z.compare_refl, Pos.compare_cont_refl.
    by destruct b.
Qed.

Lemma is_null_spec (x : float) : is_null x = true ↔ x = nan.
Proof.
  split.
  - unfold is_null, PrimFloat.is_nan. rewrite FloatAxioms.eqb_spec. intros H.
    apply SF_nan_eq.
    destruct (Prim2SF x) as [b|b| |b m e] eqn:Hx; [| |done|];
      unfold SFeqb in H; by rewrite SFcompare_refl in H.
  - by intros ->.
Qed.

Lemma is_null_false (x : float) : is_null x = false ↔ x ≠ nan.
Proof.
  rewrite <- is_null_spec. destruct (is_null x); naive_solver.
Qed.

Lemma sub_nan_r (x : float) : (x - nan)%float = nan.
Proof.
  apply SF_nan_eq. rewrite sub_spec, prim_nan.
  by destruct (Prim2SF x).
Qed.

Lemma sub_nan_l (x : float) : (nan - x)%float = nan.
Proof. apply SF_nan_eq. by rewrite sub_spec, prim_nan. Qed.

Lemma div_nan_r (x : float) : (x / nan)%float = nan.
Proof.
  apply SF_nan_eq. rewrite div_spec, prim_nan.
  by destruct (Prim2SF x).
Qed.

Lemma div_nan_l (x : float) : (nan / x)%float = nan.
Proof. apply SF_nan_eq. by rewrite div_spec, prim_nan. Qed.

Lemma mul_nan_l (x : float) : (nan * x)%float = nan.
Proof. apply SF_nan_eq. by rewrite mul_spec, prim_nan. Qed.

Lemma is_zero_spec (x : float) :
  is_zero x = true ↔ ∃ s, Prim2SF x = S754_zero s.
Proof.
  unfold is_zero. rewrite FloatAxioms.eqb_spec.
  change (Prim2SF 0) with (S754_zero false).
  destruct (Prim2SF x) as [b|b| |b m e]; simpl.
  - split; eauto.
  - split; [by destruct b|]. by intros [? ?].
  - split; [done|]. by intros [? ?].
  - split; [by destruct b|]. by intros [? ?].
Qed.

Lemma is_inf_spec (x : float) :
  is_inf x = true ↔ ∃ s, Prim2SF x = S754_infinity s.
Proof.
  unfold is_inf, PrimFloat.is_infinity.
  rewrite FloatAxioms.eqb_spec, abs_spec.
  change (Prim2SF infinity) with (S754_infinity false).
  destruct (Prim2SF x) as [b|b| |b m e]; simpl.
  - split; [done|]. by intros [? ?].
  - split; eauto.
  - split; [done|]. by intros [? ?].
  - split; [done|]. by intros [? ?].
Qed.

(** A non-null, non-zero numerator over a zero denominator is an
    infinity; numpy does not raise. *)
Lemma div_zero_inf (x y : float) :
  is_zero y = true → is_null x = false → is_zero x = false →
  is_inf (x / y) = true.
Proof.
  rewrite is_zero_spec. intros [s Hy] Hn Hz.
  apply is_inf_spec. rewrite div_spec, Hy.
  destruct (Prim2SF x) as [b|b| |b m e] eqn:Hx; simpl; eauto.
  - assert (is_zero x = true) by (apply is_zero_spec; eauto). congruence.
  - apply SF_nan_eq in Hx. subst x. done.
Qed.

Lemma div_zero_zero (x y : float) :
  is_zero y = true → is_zero x = true → (x / y)%float = nan.
Proof.
  rewrite !is_zero_spec. intros [s Hy] [t Hx].
  apply SF_nan_eq. by rewrite div_spec, Hx, Hy.
Qed.

Lemma sub_zero_r (x y : float) :
  is_zero y = true → is_null x = false → is_zero x = false →
  (x - y)%float = x.
Proof.
  rewrite is_zero_spec. intros [s Hy] Hn Hz.
  apply Prim2SF_inj. rewrite sub_spec, Hy.
  destruct (Prim2SF x) as [b|b| |b m e] eqn:Hx; simpl; try done.
  assert (is_zero x = true) by (apply is_zero_spec; eauto). congruence.
Qed.

Lemma sub_zero_zero (x y : float) :
  is_zero x = true → is_zero y = true → is_zero (x - y) = true.
Proof.
  rewrite !is_zero_spec. intros [s Hx] [t Hy].
  rewrite sub_spec, Hx, Hy. destruct s, t; simpl; eauto.
Qed.

Lemma mul_inf_100 (x : float) :
  is_inf x = true → is_inf (x * 100) = true.
Proof.
  rewrite !is_inf_spec. intros [s Hx].
  rewrite mul_spec, Hx.
  change (Prim2SF 100) with (S754_finite false 7036874417766400 (-46)).
  simpl. eauto.
Qed.

Lemma inf_not_null (x : float) : is_inf x = true → is_null x = false.
Proof.
  rewrite is_inf_spec. intros [s Hx]. apply is_null_false.
  intros ->. by rewrite prim_nan in Hx.
Qed.

End F64_facts.

(** ** The stable sort *)

Section Sorting_facts.
Context {A : Type} (le : A → A → bool).

Local Abbreviation R := (λ u v : A, le u v = true).

Lemma insert_by_perm (x : A) (l : list A) : insert_by le x l ≡ₚ x :: l.
Proof.
  induction l as [|y l IH]; simpl; [done|].
  destruct (le x y); [done|].
  rewrite IH. apply Permutation_swap.
Qed.

Lemma stable_sort_perm (l : list A) : stable_sort le l ≡ₚ l.
Proof.
  induction l as [|x l IH]; simpl; [done|].
  by rewrite insert_by_perm, IH.
Qed.

Lemma elem_of_stable_sort (l : list A) (x : A) :
  x ∈ stable_sort le l ↔ x ∈ l.
Proof. by rewrite stable_sort_perm. Qed.

Hypothesis le_total : ∀ x y, le x y = false → le y x = true.

Lemma insert_by_hd (x a : A) (l : list A) :
  le a x = true → HdRel R a l → HdRel R a (insert_by le x l).
Proof.
  intros Hax Hl. destruct l as [|y l]; simpl.
  - by constructor.
  - destruct (le x y); constructor; [done|].
    by inversion Hl.
Qed.

Lemma insert_by_sorted (x : A) (l : list A) :
  Sorted R l → Sorted R (insert_by le x l).
Proof.
  induction 1 as [|y l Hs IH Hhd]; simpl.
  - by repeat constructor.
  - destruct (le x y) eqn:Hxy.
    + constructor; [by constructor|by constructor].
    + constructor; [done|]. apply insert_by_hd; auto.
Qed.

Lemma stable_sort_sorted (l : list A) : Sorted R (stable_sort le l).
Proof.
  induction l as [|x l IH]; simpl; [constructor|].
  by apply insert_by_sorted.
Qed.

End Sorting_facts.

Lemma StronglySorted_filter {A} (R : relation A) (P : A → Prop)
    `{!∀ x, Decision (P x)} (l : list A) :
  StronglySorted R l → StronglySorted R (filter P l).
Proof.
  induction 1 as [|x l Hs IH Hall]; [constructor|].
  rewrite filter_cons. destruct (decide (P x)); [|done].
  constructor; [done|].
  rewrite Forall_forall in Hall |- *. intros y Hy.
  apply Hall. by apply list_elem_of_filter in Hy as [_ ?].
Qed.

Lemma StronglySorted_impl_elem {A} (R R' : relation A) (l : list A) :
  StronglySorted R l →
  (∀ x y, x ∈ l → y ∈ l → R x y → R' x y) →
  StronglySorted R' l.
Proof.
  induction 1 as [|x l Hs IH Hall]; intros Himp; [constructor|].
  constructor.
  - apply IH. intros u v Hu Hv. apply Himp; by right.
  - rewrite Forall_forall in Hall |- *. intros y Hy.
    apply Himp; [by left|by right|by apply Hall].
Qed.

(** ** The order of the sort keys *)

Section Order_facts.

Lemma ascii_compare_lt_trans (a b c : Ascii.ascii) :
  Ascii.compare a b = Lt → Ascii.compare b c = Lt → Ascii.compare a c = Lt.
Proof.
  unfold Ascii.compare. rewrite !N.compare_lt_iff. lia.
Qed.

Lemma string_compare_refl (s : string) : String.compare s s = Eq.
Proof.
  induction s as [|a s IH]; simpl; [done|].
  unfold Ascii.compare. by rewrite N.compare_refl.
Qed.

Lemma string_compare_lt_trans (a b c : string) :
  String.compare a b = Lt → String.compare b c = Lt →
  String.compare a c = Lt.
Proof.
  revert b c. induction a as [|x a IH]; intros [|y b] [|z c]; simpl;
    try done.
  destruct (Ascii.compare x y) eqn:Hxy; [|  |done].
  - apply Ascii.compare_eq_iff in Hxy as ->.
    destruct (Ascii.compare y z) eqn:Hyz; [|done..].
    apply IH.
  - intros _.
    destruct (Ascii.compare y z) eqn:Hyz; [ | |done].
    + apply Ascii.compare_eq_iff in Hyz as <-. by rewrite Hxy.
    + by rewrite (ascii_compare_lt_trans _ _ _ Hxy Hyz).
Qed.

Lemma site_compare_eq (a b : option string) :
  Frame.site_compare a b = Eq ↔ a = b.
Proof.
  destruct a as [x|], b as [y|]; simpl; try done.
  split.
  - by intros ->%String.compare_eq_iff.
  - intros [= ->]. apply string_compare_refl.
Qed.

Lemma site_compare_antisym (a b : option string) :
  Frame.site_compare a b = CompOpp (Frame.site_compare b a).
Proof.
  destruct a as [x|], b as [y|]; simpl; try done.
  apply String.compare_antisym.
Qed.

Lemma site_compare_lt_trans (a b c : option string) :
  Frame.site_compare a b = Lt → Frame.site_compare b c = Lt →
  Frame.site_compare a c = Lt.
Proof.
  destruct a as [x|], b as [y|], c as [z|]; simpl; try done.
  apply string_compare_lt_trans.
Qed.

Lemma time_leb_refl (a : option Z) : Time.leb a a = true.
Proof. destruct a; simpl; [lia|done]. Qed.

Lemma time_leb_trans (a b c : option Z) :
  Time.leb a b = true → Time.leb b c = true → Time.leb a c = true.
Proof. destruct a, b, c; simpl; try done; lia. Qed.

Lemma time_leb_total (a b : option Z) :
  Time.leb a b = false → Time.leb b a = true.
Proof. destruct a, b; simpl; try done; lia. Qed.

Lemma site_time_leb_total (r1 r2 : Row) :
  Frame.site_time_leb r1 r2 = false → Frame.site_time_leb r2 r1 = true.
Proof.
  unfold Frame.site_time_leb.
  rewrite (site_compare_antisym (site_no r2)).
  destruct (Frame.site_compare (site_no r1) (site_no r2)); simpl;
    auto using time_leb_total.
Qed.

Global Instance site_time_leb_trans :
  Transitive (λ r1 r2, Frame.site_time_leb r1 r2 = true).
Proof.
  intros r1 r2 r3. unfold Frame.site_time_leb.
  destruct (Frame.site_compare (site_no r1) (site_no r2)) eqn:H12;
    [| |done].
  - apply site_compare_eq in H12 as ->.
    destruct (Frame.site_compare (site_no r2) (site_no r3)); try done.
    apply time_leb_trans.
  - intros _.
    destruct (Frame.site_compare (site_no r2) (site_no r3)) eqn:H23;
      [| |done].
    + apply site_compare_eq in H23 as <-. by rewrite H12.
    + by rewrite (site_compare_lt_trans _ _ _ H12 H23).
Qed.

Global Instance time_leb_row_trans :
  Transitive (λ r1 r2, Frame.time_leb r1 r2 = true).
Proof. intros r1 r2 r3. apply time_leb_trans. Qed.

Global Instance time_leb_row_refl :
  Reflexive (λ r1 r2, Frame.time_leb r1 r2 = true).
Proof. intros r. apply time_leb_refl. Qed.

Lemma sort_values_time_sorter : Frame.timestamp_sorter Frame.sort_values_time.
Proof.
  intros df. split.
  - apply stable_sort_perm.
  - apply stable_sort_sorted. intros x y. apply time_leb_total.
Qed.

(** After [sort_values(["site_no", "timestamp_utc"])] the rows of every
    site are in ascending timestamp order. *)
Lemma group_of_sorted (k : string) (df : list Row) :
  StronglySorted (λ r1 r2, Frame.time_leb r1 r2 = true)
    (Frame.group_of k (Frame.sort_values_site_time df)).
Proof.
  unfold Frame.group_of, Frame.sort_values_site_time.
  pose proof (stable_sort_sorted Frame.site_time_leb site_time_leb_total df)
    as Hs.
  apply Sorted_StronglySorted in Hs; [|apply _].
  apply (StronglySorted_filter _ (λ r, site_no r = Some k)) in Hs.
  eapply StronglySorted_impl_elem; [done|].
  intros x y [Hx _]%list_elem_of_filter [Hy _]%list_elem_of_filter.
  unfold Frame.site_time_leb, Frame.time_leb.
  rewrite Hx, Hy. simpl. by rewrite string_compare_refl.
Qed.

End Order_facts.

(** ** Grouped transform *)

Section Transform_facts.
Import Frame.

Lemma site_no_set_derived f r : site_no (set_derived f r) = site_no r.
Proof. done. Qed.

Lemma length_transform_go f whole rest seen :
  length (transform_go f whole seen rest) = length rest.
Proof.
  revert seen. induction rest as [|r rest IH]; intros seen; simpl; auto.
Qed.

Lemma length_transform f df : length (transform f df) = length df.
Proof. apply length_transform_go. Qed.

Lemma length_assign name col df :
  length col = length df → length (assign name col df) = length df.
Proof. intros H. unfold assign. by rewrite length_zip_with_l_eq. Qed.

Lemma group_of_transform_go f whole k name rest seen :
  group_of k (zip_with (λ r v, set_derived (<[name := v]>) r) rest
                (transform_go f whole seen rest))
  = zip_with (λ r v, set_derived (<[name := v]>) r) (group_of k rest)
      ((λ j, default nan (f (flows (group_of k whole)) !! j))
         <$> seq (length (group_of k seen)) (length (group_of k rest))).
Proof.
  revert seen. unfold group_of.
  induction rest as [|r rest IH]; intros seen; simpl; [done|].
  rewrite !filter_cons, site_no_set_derived, IH, filter_app.
  destruct (decide (site_no r = Some k)) as [Hk|Hk].
  - rewrite filter_cons_True by done. simpl.
    rewrite length_app. simpl.
    unfold transform_cell. rewrite Hk.
    by rewrite Nat.add_1_r.
  - rewrite filter_cons_False by done. simpl.
    by rewrite app_nil_r.
Qed.

(** The grouped transform acts on each group separately. *)
Lemma group_of_assign_transform k name f df :
  group_of k (assign name (transform f df) df)
  = assign_group name f (group_of k df).
Proof. apply group_of_transform_go. Qed.

Lemma assign_group_lookup name f g (i : nat) :
  assign_group name f g !! i
  = (λ r, set_derived (<[name := default nan (f (flows g) !! i)]>) r)
      <$> g !! i.
Proof.
  unfold assign_group. rewrite lookup_zip_with.
  destruct (g !! i) as [r|] eqn:Hr; simpl; [|done].
  rewrite list_lookup_fmap, lookup_seq_lt; [done|].
  by eapply lookup_lt_Some.
Qed.

Lemma flows_assign_group name f g : flows (assign_group name f g) = flows g.
Proof.
  apply list_eq. intros i. unfold flows.
  rewrite !list_lookup_fmap, assign_group_lookup.
  by destruct (g !! i).
Qed.

Lemma shift_lookup (w : nat) (x : list float) (i : nat) :
  (i < length x)%nat →
  shift w x !! i
  = Some (if decide (i < w)%nat then nan else default nan (x !! (i - w)%nat)).
Proof.
  intros Hi. unfold shift. rewrite lookup_take_lt by done.
  destruct (decide (i < w)%nat) as [Hw|Hw].
  - rewrite lookup_app_l by (by rewrite length_replicate).
    by rewrite lookup_replicate_2.
  - rewrite lookup_app_r by (rewrite length_replicate; lia).
    rewrite length_replicate.
    destruct (lookup_lt_is_Some_2 x (i - w)%nat) as [b ->]; [lia|done].
Qed.

Lemma length_shift w x : length (shift w x) = length x.
Proof.
  unfold shift. rewrite length_take, length_app, length_replicate. lia.
Qed.

Lemma pct_change_lookup (w : nat) (x : list float) (i : nat) (a : float) :
  x !! i = Some a →
  RateOfChange.pct_change w x !! i
  = Some (let b := if decide (i < w)%nat then nan
                   else default nan (x !! (i - w)%nat) in
          (a - b) / b * 100)%float.
Proof.
  intros Ha. unfold RateOfChange.pct_change.
  rewrite lookup_zip_with, Ha. simpl.
  rewrite shift_lookup by (by eapply lookup_lt_Some). done.
Qed.

Lemma group_of_add_pct_changes k df :
  group_of k (RateOfChange.add_pct_changes df)
  = foldl (λ g '(label, window),
             assign_group (RateOfChange.column_name label)
               (RateOfChange.pct_change window) g)
      (group_of k df) RateOfChange.WINDOWS.
Proof.
  unfold RateOfChange.add_pct_changes.
  generalize RateOfChange.WINDOWS as ws. intros ws. revert df.
  induction ws as [|[label w] ws IH]; intros df; simpl; [done|].
  by rewrite IH, group_of_assign_transform.
Qed.

(** The value written in the column of window [w] at rank [i] of a
    group with flows [x]. *)
Lemma pct_cell_value (w : nat) (x : list float) (i : nat) (a : float) :
  x !! i = Some a →
  default nan (RateOfChange.pct_change w x !! i)
  = (let b := if decide (i < w)%nat then nan
              else default nan (x !! (i - w)%nat) in
     (a - b) / b * 100)%float.
Proof. intros Ha. by rewrite (pct_change_lookup _ _ _ _ Ha). Qed.

Lemma add_pct_group_lookup (g : list Row) (i : nat) (r : Row) :
  foldl (λ g '(label, window),
           assign_group (RateOfChange.column_name label)
             (RateOfChange.pct_change window) g)
    g RateOfChange.WINDOWS !! i = Some r →
  ∃ cur, g !! i = Some cur ∧
    site_no r = site_no cur ∧ site_name r = site_name cur ∧
    timestamp_utc r = timestamp_utc cur ∧ flow_cfs r = flow_cfs cur ∧
    ∀ label w, (label, w) ∈ RateOfChange.WINDOWS →
      derived r !! RateOfChange.column_name label
      = Some (default nan (RateOfChange.pct_change w (flows g) !! i)).
Proof.
  simpl. rewrite !assign_group_lookup, !flows_assign_group.
  destruct (g !! i) as [cur|] eqn:Hcur; simpl; [|done].
  intros [= <-]. exists cur. repeat split; try done.
  intros label w Hin.
  repeat (apply elem_of_cons in Hin as [[= -> ->]|Hin]);
    [..|by apply elem_of_nil in Hin]; simpl.
  - rewrite lookup_insert_ne by done. rewrite lookup_insert_ne by done.
    by rewrite lookup_insert_eq.
  - rewrite lookup_insert_ne by done. by rewrite lookup_insert_eq.
  - by rewrite lookup_insert_eq.
Qed.

End Transform_facts.

(** ** Rate of change *)

Section RateOfChange_facts.
Import Frame.

(** The cell of window [w] at rank [i] of the series of site [k]. *)
Lemma pct_cell (df : list Row) (k : string) (i : nat) (r : Row)
    (label : string) (w : nat) :
  let series := group_of k (sort_values_site_time df) in
  group_of k (Process.compute_rate_of_change df) !! i = Some r →
  (label, w) ∈ RateOfChange.WINDOWS →
  ∃ cur, series !! i = Some cur ∧
    site_no r = site_no cur ∧ site_name r = site_name cur ∧
    timestamp_utc r = timestamp_utc cur ∧ flow_cfs r = flow_cfs cur ∧
    derived r !! RateOfChange.column_name label
    = Some (let b := if decide (i < w)%nat then nan
                     else default nan (flows series !! (i - w)%nat) in
            (flow_cfs cur - b) / b * 100)%float.
Proof.
  intros series Hr Hw. subst series.
  unfold Process.compute_rate_of_change in Hr.
  rewrite group_of_add_pct_changes in Hr.
  apply add_pct_group_lookup in Hr as (cur & Hcur & ? & ? & ? & ? & Hd).
  exists cur. repeat split; try done.
  rewrite (Hd _ _ Hw). f_equal. apply pct_cell_value.
  unfold flows. by rewrite list_lookup_fmap, Hcur.
Qed.

Lemma pct_of_null_earlier (a : float) : ((a - nan) / nan * 100)%float = nan.
Proof. by rewrite F64_facts.sub_nan_r, F64_facts.div_nan_l, F64_facts.mul_nan_l. Qed.

(** C1.  In the frame that the rate-of-change computation builds, the
    rows of every site are in ascending timestamp order, and the cell
    [pct_change_<label>] of the row at rank [i] of a site's series is
    [(flow_i - flow_(i-w)) / flow_(i-w) * 100], where [w] is the sample
    count of the label (1h = 12, 3h = 36, 6h = 72) and the earlier row is
    the one [w] ranks before in the same series, whatever its timestamp.
    On 72 samples of flow 10 followed by one sample of flow 15, the row
    that is returned has [pct_change_1h] equal to 50.0. *)
Theorem rate_of_change_formula :
  RateOfChange.WINDOWS = [("1h", 12%nat); ("3h", 36%nat); ("6h", 72%nat)]
  ∧ (∀ (df : list Row) (k : string),
       sort_values_site_time df ≡ₚ df ∧
       StronglySorted (λ r1 r2, Time.leb (timestamp_utc r1) (timestamp_utc r2) = true)
         (group_of k (sort_values_site_time df)))
  ∧ (∀ (df : list Row) (k : string) (i : nat) (r : Row)
       (label : string) (w : nat),
       group_of k (Process.compute_rate_of_change df) !! i = Some r →
       (label, w) ∈ RateOfChange.WINDOWS →
       (w ≤ i)%nat →
       ∃ cur prev,
         group_of k (sort_values_site_time df) !! i = Some cur ∧
         group_of k (sort_values_site_time df) !! (i - w)%nat = Some prev ∧
         timestamp_utc r = timestamp_utc cur ∧
         flow_cfs r = flow_cfs cur ∧
         derived r !! RateOfChange.column_name label
         = Some ((flow_cfs cur - flow_cfs prev) / flow_cfs prev * 100)%float)
  ∧ (∃ r, Analyze.compute_rate_of_change series_X1 = [r] ∧
          Analyze.r_flow_cfs r = 15%float ∧
          Analyze.r_pct_change_1h r = 50%float).
Proof.
  split; [done|]. split; [|split].
  - intros df k. split; [apply stable_sort_perm|apply group_of_sorted].
  - intros df k i r label w Hr Hw Hi.
    destruct (pct_cell df k i r label w Hr Hw)
      as (cur & Hcur & _ & _ & Ht & Hf & Hd).
    destruct (lookup_lt_is_Some_2 (group_of k (sort_values_site_time df))
                (i - w)%nat) as [prev Hprev].
    { apply lookup_lt_Some in Hcur. lia. }
    exists cur, prev. repeat split; try done.
    rewrite Hd. simpl. rewrite decide_False by lia.
    unfold flows. by rewrite list_lookup_fmap, Hprev.
  - eexists. split; [by vm_compute|]. by split.
Qed.

Lemma rate_of_change_formula_witness :
  ∃ r cur prev,
    group_of "X1" (Process.compute_rate_of_change series_X1) !! 72%nat
      = Some r ∧
    group_of "X1" (sort_values_site_time series_X1) !! 72%nat = Some cur ∧
    group_of "X1" (sort_values_site_time series_X1) !! 60%nat = Some prev ∧
    flow_cfs cur = 15%float ∧ flow_cfs prev = 10%float ∧
    derived r !! "pct_change_1h"
    = Some ((flow_cfs cur - flow_cfs prev) / flow_cfs prev * 100)%float.
Proof.
  destruct rate_of_change_formula as (_ & _ & H & _).
  assert (∃ r, group_of "X1" (Process.compute_rate_of_change series_X1)
                 !! 72%nat = Some r) as [r Hr]
    by (vm_compute; eexists; reflexivity).
  destruct (H series_X1 "X1" 72%nat r "1h" 12%nat Hr)
    as (cur & prev & Hc & Hp & _ & _ & Hd).
  - by vm_compute; left.
  - lia.
  - exists r, cur, prev.
    assert (flow_cfs <$> group_of "X1" (sort_values_site_time series_X1)
              !! 72%nat = Some 15%float) as Hfc by (by vm_compute).
    assert (flow_cfs <$> group_of "X1" (sort_values_site_time series_X1)
              !! 60%nat = Some 10%float) as Hfp by (by vm_compute).
    change (72 - 12)%nat with 60%nat in Hp.
    rewrite Hc in Hfc. rewrite Hp in Hfp.
    injection Hfc as Hfc. injection Hfp as Hfp.
    split; [exact Hr|]. split; [exact Hc|]. split; [exact Hp|].
    split; [exact Hfc|]. split; [exact Hfp|]. exact Hd.
Defined.

(** C2, as stated, fails: the row 12 samples before the last one has
    flow 0, and [pct_change_1h] of the last row is [+infinity], which is
    not null. *)
Lemma zero_lookback_not_null :
  ∃ r prev,
    Analyze.compute_rate_of_change series_dry = [r] ∧
    group_of "X1" (sort_values_site_time series_dry) !! (12 - 12)%nat
      = Some prev ∧
    F64.is_zero (flow_cfs prev) = true ∧
    Analyze.r_pct_change_1h r = infinity ∧
    F64.is_null (Analyze.r_pct_change_1h r) = false.
Proof. do 2 eexists. repeat split; by vm_compute. Qed.

(** C2, amended.  In the column of each configured label, a row with
    fewer than [w] earlier samples in its series, or whose [w]-earlier
    flow is null, holds null: the computation is total and writes no
    default.  When the [w]-earlier flow is zero the division is an
    IEEE-754 one: the cell is null if the flow of the row is itself zero
    or null, and an infinity otherwise. *)
Theorem rate_of_change_null :
  ∀ (df : list Row) (k : string) (i : nat) (r : Row)
    (label : string) (w : nat),
    group_of k (Process.compute_rate_of_change df) !! i = Some r →
    (label, w) ∈ RateOfChange.WINDOWS →
    ∃ v, derived r !! RateOfChange.column_name label = Some v ∧
      ((i < w)%nat → v = nan) ∧
      (∀ prev,
         (w ≤ i)%nat →
         group_of k (sort_values_site_time df) !! (i - w)%nat = Some prev →
         (F64.is_null (flow_cfs prev) = true → v = nan) ∧
         (F64.is_zero (flow_cfs prev) = true →
            (F64.is_null (flow_cfs r) = true → v = nan) ∧
            (F64.is_zero (flow_cfs r) = true → v = nan) ∧
            (F64.is_null (flow_cfs r) = false →
             F64.is_zero (flow_cfs r) = false →
             F64.is_inf v = true ∧ F64.is_null v = false))).
Proof.
  intros df k i r label w Hr Hw.
  destruct (pct_cell df k i r label w Hr Hw)
    as (cur & Hcur & _ & _ & _ & Hf & Hd).
  eexists. split; [exact Hd|]. simpl. rewrite Hf. split.
  - intros Hi. rewrite decide_True by done. apply pct_of_null_earlier.
  - intros prev Hi Hprev. rewrite decide_False by lia.
    unfold flows. rewrite list_lookup_fmap, Hprev. simpl. split.
    + intros ->%F64_facts.is_null_spec. apply pct_of_null_earlier.
    + intros Hz. split; [|split].
      * intros ->%F64_facts.is_null_spec.
        by rewrite F64_facts.sub_nan_l, F64_facts.div_nan_l,
          F64_facts.mul_nan_l.
      * intros Hc.
        rewrite (F64_facts.div_zero_zero _ _ Hz)
          by (by apply F64_facts.sub_zero_zero).
        apply F64_facts.mul_nan_l.
      * intros Hn Hc. rewrite F64_facts.sub_zero_r by done.
        assert (F64.is_inf (flow_cfs cur / flow_cfs prev * 100) = true)
          by (by apply F64_facts.mul_inf_100, F64_facts.div_zero_inf).
        split; [done|]. by apply F64_facts.inf_not_null.
Qed.

Lemma rate_of_change_null_witness :
  ∃ r v,
    group_of "X1" (Process.compute_rate_of_change series_dry) !! 3%nat
      = Some r ∧
    derived r !! "pct_change_1h" = Some v ∧ v = nan.
Proof.
  assert (∃ r, group_of "X1" (Process.compute_rate_of_change series_dry)
                 !! 3%nat = Some r) as [r Hr]
    by (vm_compute; eexists; reflexivity).
  destruct (rate_of_change_null series_dry "X1" 3%nat r "1h" 12%nat Hr)
    as (v & Hv & Hnull & _).
  - by vm_compute; left.
  - exists r, v. split; [exact Hr|]. split; [exact Hv|]. apply Hnull. lia.
Defined.

End RateOfChange_facts.

(** ** The most recent record of each site *)

Section Latest_facts.
Import Frame.

Lemma group_of_nil_iff (k : string) (l : list Row) :
  group_of k l = [] ↔ ∀ r, r ∈ l → site_no r ≠ Some k.
Proof.
  unfold group_of. split.
  - intros Hnil r Hr Hk.
    assert (r ∈ filter (λ r, site_no r = Some k) l) as Hin
      by (by apply list_elem_of_filter).
    rewrite Hnil in Hin. by apply elem_of_nil in Hin.
  - intros Hall. induction l as [|a l IH]; [done|].
    rewrite filter_cons_False by (apply Hall; left).
    apply IH. intros r Hr. apply Hall. by right.
Qed.

Lemma groupby_tail1_elem (l : list Row) (r : Row) :
  r ∈ groupby_tail1 l → r ∈ l ∧ is_Some (site_no r).
Proof.
  induction l as [|a l IH]; simpl; [by intros ?%elem_of_nil|].
  destruct (site_no a) as [k|] eqn:Ha.
  - destruct (decide (group_of k l = [])).
    + intros [->|Hr]%elem_of_cons.
      * split; [left|by rewrite Ha].
      * destruct (IH Hr). split; [by right|done].
    + intros Hr. destruct (IH Hr). split; [by right|done].
  - intros Hr. destruct (IH Hr). split; [by right|done].
Qed.



(** The row that is kept is the last of its site: in a sorted frame no
    row of the site comes after it. *)
Lemma groupby_tail1_last (R : relation Row) `{!Reflexive R}
    (l : list Row) (r r' : Row) :
  StronglySorted R l →
  r ∈ groupby_tail1 l → r' ∈ l → site_no r' = site_no r → R r' r.
Proof.
  induction 1 as [|a l Hs IH Hall]; simpl; [by intros ?%elem_of_nil|].
  intros Hr Hr' Hsite.
  assert (r ∈ groupby_tail1 l → R r' r) as Htail.
  { intros Hin. apply elem_of_cons in Hr' as [->|Hr']; [|by apply IH].
    rewrite Forall_forall in Hall. apply Hall.
    by apply groupby_tail1_elem in Hin as [? _]. }
  destruct (site_no a) as [k|] eqn:Ha; [|by apply Htail].
  destruct (decide (group_of k l = [])) as [Hnil|]; [|by apply Htail].
  apply elem_of_cons in Hr as [->|Hr]; [|by apply Htail].
  apply elem_of_cons in Hr' as [->|Hr']; [done|].
  rewrite group_of_nil_iff in Hnil. destruct (Hnil r' Hr'). congruence.
Qed.

Lemma without_derived_assign name col df :
  length col = length df →
  without_derived <$> assign name col df = without_derived <$> df.
Proof.
  intros Hlen. apply list_eq. intros i. unfold assign.
  rewrite !list_lookup_fmap, lookup_zip_with.
  destruct (df !! i) as [r|] eqn:Hr; simpl; [|done].
  destruct (lookup_lt_is_Some_2 col i) as [v ->]; [|done].
  rewrite Hlen. by eapply lookup_lt_Some.
Qed.

(** The loop over the windows only writes derived columns. *)
Lemma without_derived_add_pct_changes df :
  without_derived <$> RateOfChange.add_pct_changes df
  = without_derived <$> df.
Proof.
  unfold RateOfChange.add_pct_changes.
  generalize RateOfChange.WINDOWS as ws. intros ws. revert df.
  induction ws as [|[label w] ws IH]; intros df; simpl; [done|].
  rewrite IH. apply without_derived_assign, length_transform.
Qed.

Lemma elem_of_rate_frame df row :
  row ∈ Process.compute_rate_of_change df →
  ∃ r, r ∈ df ∧ without_derived row = without_derived r.
Proof.
  intros Hrow. unfold Process.compute_rate_of_change in Hrow.
  apply (list_elem_of_fmap_2 without_derived) in Hrow.
  rewrite without_derived_add_pct_changes in Hrow.
  apply list_elem_of_fmap in Hrow as (r & Heq & Hr).
  exists r. split; [|done].
  by apply elem_of_stable_sort in Hr.
Qed.

Lemma rate_frame_of_elem df r :
  r ∈ df →
  ∃ row, row ∈ Process.compute_rate_of_change df ∧
         without_derived row = without_derived r.
Proof.
  intros Hr. apply (elem_of_stable_sort site_time_leb) in Hr.
  apply (list_elem_of_fmap_2 without_derived) in Hr.
  rewrite <- without_derived_add_pct_changes in Hr.
  apply list_elem_of_fmap in Hr as (row & Heq & Hrow). eauto.
Qed.

Lemma without_derived_fields r1 r2 :
  without_derived r1 = without_derived r2 →
  site_no r1 = site_no r2 ∧ site_name r1 = site_name r2 ∧
  timestamp_utc r1 = timestamp_utc r2 ∧ flow_cfs r1 = flow_cfs r2.
Proof. destruct r1, r2. unfold without_derived, set_derived. simpl. by intros [= -> -> -> -> _ _ _ _]. Qed.

Lemma latest_with_elem sorter df row :
  timestamp_sorter sorter →
  row ∈ Analyze.latest_with sorter df →
  row ∈ Process.compute_rate_of_change df ∧ is_Some (site_no row).
Proof.
  intros Hs Hrow. apply groupby_tail1_elem in Hrow as [Hrow ?].
  split; [|done]. by rewrite (proj1 (Hs _)) in Hrow.
Qed.




End Latest_facts.

(** ** The left join and the comparison *)

Section Compare_facts.
Import Join Compare.

Lemma elem_of_merge_left cur hist (m : Row * option Baseline) :
  m ∈ merge_left cur hist ↔
  m.1 ∈ cur ∧ ((matches m.1 hist = [] ∧ m.2 = None)
               ∨ ∃ b, b ∈ matches m.1 hist ∧ m.2 = Some b).
Proof.
  unfold merge_left. rewrite list_elem_of_bind. split.
  - intros (r & Hm & Hr). destruct (matches r hist) as [|b bs] eqn:E.
    + apply list_elem_of_singleton in Hm as ->. simpl.
      split; [done|]. left. by rewrite E.
    + apply list_elem_of_fmap in Hm as (b' & -> & Hb'). simpl.
      split; [done|]. right. exists b'. by rewrite E.
  - destruct m as [r ob]. simpl. intros [Hr Hcase]. exists r.
    split; [|done]. destruct Hcase as [[-> ->]|(b & Hb & ->)].
    + by left.
    + destruct (matches r hist) as [|b0 bs] eqn:E.
      * by apply elem_of_nil in Hb.
      * by apply (list_elem_of_fmap_2 (λ b, (r, Some b)) (b0 :: bs) b).
Qed.

(** The left join drops no left row. *)
Lemma merge_left_keeps cur hist r :
  r ∈ cur → ∃ ob, (r, ob) ∈ merge_left cur hist.
Proof.
  intros Hr. destruct (matches r hist) as [|b bs] eqn:E.
  - exists None. apply elem_of_merge_left. simpl. by split; [|left].
  - exists (Some b). apply elem_of_merge_left. simpl.
    split; [done|]. right. exists b. rewrite E. split; [left|done].
Qed.

Lemma matches_unique hist r :
  NoDup (baseline_key <$> hist) → (length (matches r hist) ≤ 1)%nat.
Proof.
  unfold matches. induction hist as [|b hist IH]; [simpl; lia|].
  rewrite fmap_cons, NoDup_cons. intros [Hb Hnd].
  rewrite filter_cons. destruct (decide (baseline_key b = join_key r)) as [Hk|];
    [|by apply IH].
  assert (filter (λ b0, baseline_key b0 = join_key r) hist = []) as ->;
    [|simpl; lia].
  destruct (filter _ hist) as [|b' l] eqn:E; [done|].
  assert (b' ∈ filter (λ b0, baseline_key b0 = join_key r) hist) as Hin
    by (rewrite E; left).
  apply list_elem_of_filter in Hin as [Hk' Hin]. destruct Hb.
  rewrite Hk, <- Hk'. by apply list_elem_of_fmap_2.
Qed.

(** With at most one baseline row per key the join is one to one. *)
Lemma merge_left_one_to_one cur hist :
  NoDup (baseline_key <$> hist) → fst <$> merge_left cur hist = cur.
Proof.
  intros Hnd. unfold merge_left.
  induction cur as [|r cur IH]; [done|].
  rewrite bind_cons, fmap_app, IH. f_equal.
  pose proof (matches_unique hist r Hnd) as Hlen.
  destruct (matches r hist) as [|b [|b' bs]]; simpl in *; [done..|lia].
Qed.

Lemma result_columns_compare_row m :
  result_columns (compare_row m) = current_columns m.1.
Proof. done. Qed.

Lemma prepared_iff_complete (r : Row) :
  let r' := set_day_of_year (Time.dayofyear <$> timestamp_utc r) r in
  (is_Some (day_of_year r') ∧ F64.is_null (flow_cfs r') = false
   ∧ is_Some (site_no r'))
  ↔ complete r.
Proof. unfold complete. simpl. by rewrite fmap_is_Some. Qed.

Lemma prepare_current_data_columns df :
  current_columns <$> prepare_current_data df
  = current_columns <$> filter complete df.
Proof.
  unfold prepare_current_data, Join.prepare_current_data.
  induction df as [|r df IH]; [done|].
  rewrite fmap_cons, !filter_cons.
  pose proof (prepared_iff_complete r) as Hiff. simpl in Hiff.
  repeat case_decide.
  - rewrite !fmap_cons. by f_equal.
  - exfalso. tauto.
  - exfalso. tauto.
  - exact IH.
Qed.

Lemma elem_of_compare cur hist c :
  c ∈ compare_to_historical cur hist →
  ∃ r, r ∈ cur ∧ result_columns c = current_columns r ∧
       c_ratio c = (c_flow_cfs c / c_p90_flow_cfs c)%float ∧
       c_high_flow c = (1 <=? c_ratio c)%float ∧
       ((matches r hist = [] ∧ c_p90_flow_cfs c = nan)
        ∨ ∃ b, b ∈ hist ∧ baseline_key b = join_key r ∧
               c_p90_flow_cfs c = p90_flow_cfs b).
Proof.
  intros (m & -> & Hm)%list_elem_of_fmap.
  apply elem_of_merge_left in Hm as [Hr Hcase].
  exists m.1. repeat split; try done.
  destruct m as [r ob]. simpl in *.
  destruct Hcase as [[Hnil ->]|(b & Hb & ->)]; [by left|right].
  apply list_elem_of_filter in Hb as [? ?]. by exists b.
Qed.

(** C3, as stated, fails: the baseline value of the key is zero and the
    ratio of the row is [+infinity], which is not null (and the row is
    flagged). *)
Lemma zero_baseline_ratio_not_null :
  compare_to_historical
    (prepare_current_data [reading "X3" noon_day_200 7])
    [baseline "X3" 200 0]
  = [mkComparison (Some "X3") (Some "Gauge X3") (Some noon_day_200)
       7 0 infinity true None]
  ∧ F64.is_zero 0 = true ∧ F64.is_null infinity = false.
Proof. repeat split; by vm_compute. Qed.

(** C3, amended.  In every result row the ratio is the IEEE-754
    quotient of the flow by the baseline value that the join found, the
    value being null when no baseline row has the key of the reading.
    The ratio is null whenever the flow or the baseline value is null.
    Over a zero baseline value it is null when the flow is zero, and an
    infinity for every other flow.  The percentile of
    process_gauge_data.py is the same quotient. *)
Theorem ratio_of_comparison :
  (∀ (cur : list Row) (hist : list Baseline) (c : Comparison),
     c ∈ compare_to_historical cur hist →
     c_ratio c = (c_flow_cfs c / c_p90_flow_cfs c)%float ∧
     (∃ r, r ∈ cur ∧ result_columns c = current_columns r ∧
        ((matches r hist = [] ∧ c_p90_flow_cfs c = nan)
         ∨ ∃ b, b ∈ hist ∧ baseline_key b = join_key r ∧
                c_p90_flow_cfs c = p90_flow_cfs b)) ∧
     (F64.is_null (c_flow_cfs c) = true → c_ratio c = nan) ∧
     (F64.is_null (c_p90_flow_cfs c) = true → c_ratio c = nan) ∧
     (F64.is_zero (c_p90_flow_cfs c) = true →
        (F64.is_zero (c_flow_cfs c) = true → c_ratio c = nan) ∧
        (F64.is_null (c_flow_cfs c) = false →
         F64.is_zero (c_flow_cfs c) = false →
         F64.is_inf (c_ratio c) = true ∧ F64.is_null (c_ratio c) = false)))
  ∧ (∀ (cur : list Row) (hist : list Baseline) (p : ProcessCompare.Processed),
       p ∈ ProcessCompare.compare_to_historical cur hist →
       ProcessCompare.p_percentile p
       = (flow_cfs (ProcessCompare.p_row p) / ProcessCompare.p_p90_flow_cfs p)%float).
Proof.
  split.
  - intros cur hist c Hc.
    destruct (elem_of_compare _ _ _ Hc) as (r & Hr & Hcols & Hratio & _ & Hp90).
    split; [done|]. split; [by exists r|]. rewrite Hratio.
    split; [|split].
    + intros ->%F64_facts.is_null_spec. apply F64_facts.div_nan_l.
    + intros ->%F64_facts.is_null_spec. apply F64_facts.div_nan_r.
    + intros Hz. split.
      * intros Hf. by apply F64_facts.div_zero_zero.
      * intros Hn Hf.
        assert (F64.is_inf (c_flow_cfs c / c_p90_flow_cfs c) = true)
          by (by apply F64_facts.div_zero_inf).
        split; [done|]. by apply F64_facts.inf_not_null.
  - by intros cur hist p (m & -> & _)%list_elem_of_fmap.
Qed.

Lemma ratio_of_comparison_witness :
  ∃ c, c ∈ compare_to_historical
             (prepare_current_data [reading "X2" noon_day_200 80])
             [baseline "X1" 200 100] ∧
       F64.is_null (c_p90_flow_cfs c) = true ∧ c_ratio c = nan.
Proof.
  pose (c := mkComparison (Some "X2") (Some "Gauge X2") (Some noon_day_200)
               80 nan nan false None).
  assert (c ∈ compare_to_historical
                (prepare_current_data [reading "X2" noon_day_200 80])
                [baseline "X1" 200 100]) as Hc by (vm_compute; left).
  destruct ratio_of_comparison as [H _].
  destruct (H _ _ c Hc) as (_ & _ & _ & Hnull & _).
  exists c. split; [done|]. split; [done|]. by apply Hnull.
Defined.



(** C5, as stated, fails: the current files hold the readings of the
    rolling window, and the comparison emits one row per reading, so a
    site with two readings appears twice; a site whose only reading has
    a null flow does not appear; and a reading appears once for each
    baseline row of its key. *)
Lemma entity_rows_not_unique :
  length (filter (λ c, c_site_no c = Some "X1")
            (compare_to_historical
               (prepare_current_data
                  [reading "X1" noon_day_200 80;
                   reading "X1" (noon_day_200 + Time.minutes 5) 90])
               [baseline "X1" 200 100])) = 2%nat
  ∧ compare_to_historical
      (prepare_current_data [reading "X5" noon_day_200 nan])
      [baseline "X5" 200 100] = []
  ∧ length (filter (λ c, c_site_no c = Some "X4")
              (compare_to_historical
                 (prepare_current_data [reading "X4" noon_day_200 100])
                 [baseline "X4" 200 100; baseline "X4" 200 50])) = 2%nat.
Proof. repeat split; by vm_compute. Qed.

(** C5, amended.  The comparison keeps every reading that has a site, a
    timestamp and a flow, whether or not a baseline row matches it, and
    emits rows for those readings only.  When the baseline table has at
    most one row per (site, day of year), the result has exactly one row
    per such reading, in the order of the readings; a snapshot with one
    complete reading per site then gives one result row per site. *)
Theorem left_join_keeps_rows :
  ∀ (df : list Row) (hist : list Baseline),
    let cur := prepare_current_data df in
    let out := compare_to_historical cur hist in
    current_columns <$> cur = current_columns <$> filter complete df ∧
    (∀ r, r ∈ df → complete r →
          ∃ c, c ∈ out ∧ result_columns c = current_columns r) ∧
    (∀ c, c ∈ out →
          ∃ r, r ∈ df ∧ complete r ∧ result_columns c = current_columns r) ∧
    (NoDup (baseline_key <$> hist) →
       result_columns <$> out = current_columns <$> filter complete df ∧
       c_site_no <$> out = site_no <$> filter complete df).
Proof.
  intros df hist cur out. subst cur out.
  pose proof (prepare_current_data_columns df) as Hprep.
  assert (∀ r, r ∈ filter complete df →
            ∃ r', r' ∈ prepare_current_data df
                  ∧ current_columns r' = current_columns r) as Hfwd.
  { intros r Hr. apply (list_elem_of_fmap_2 current_columns) in Hr.
    rewrite <- Hprep in Hr.
    apply list_elem_of_fmap in Hr as (r' & ? & ?). eauto. }
  assert (∀ r', r' ∈ prepare_current_data df →
            ∃ r, r ∈ filter complete df
                 ∧ current_columns r' = current_columns r) as Hbwd.
  { intros r' Hr'. apply (list_elem_of_fmap_2 current_columns) in Hr'.
    rewrite Hprep in Hr'.
    apply list_elem_of_fmap in Hr' as (r & ? & ?). eauto. }
  split; [done|]. split; [|split].
  - intros r Hr Hc.
    destruct (Hfwd r) as (r' & Hr' & Heq); [by apply list_elem_of_filter|].
    destruct (merge_left_keeps _ hist _ Hr') as [ob Hm].
    exists (compare_row (r', ob)). split; [by apply list_elem_of_fmap_2|].
    by rewrite result_columns_compare_row.
  - intros c (m & -> & Hm)%list_elem_of_fmap.
    apply elem_of_merge_left in Hm as [Hr' _].
    destruct (Hbwd _ Hr') as (r & [Hc Hr]%list_elem_of_filter & Heq).
    exists r. by rewrite result_columns_compare_row.
  - intros Hnd.
    assert (result_columns <$> compare_to_historical
                                  (prepare_current_data df) hist
            = current_columns <$> filter complete df) as Hcols.
    { unfold compare_to_historical.
      rewrite <- list_fmap_compose, <- Hprep.
      rewrite <- (merge_left_one_to_one (prepare_current_data df) hist Hnd)
        at 2.
      by rewrite <- list_fmap_compose. }
    split; [done|].
    apply (f_equal (fmap (λ x, x.1.1.1.1))) in Hcols.
    by rewrite <- !list_fmap_compose in Hcols.
Qed.

Lemma left_join_keeps_rows_witness :
  ∃ c, c ∈ compare_to_historical
             (prepare_current_data [reading "X2" noon_day_200 80])
             [baseline "X1" 200 100]
       ∧ result_columns c = current_columns (reading "X2" noon_day_200 80).
Proof.
  destruct (left_join_keeps_rows [reading "X2" noon_day_200 80]
              [baseline "X1" 200 100]) as (_ & Hkeep & _).
  apply Hkeep; [left|].
  split; [by eexists|]. split; [reflexivity|by eexists].
Defined.

End Compare_facts.

(** ** The rolling window *)

Section Store_facts.
Import Store.

Lemma max_timestamp_spec (df : list Row) (t : Z) :
  max_timestamp df = Some t ↔
  (∃ r, r ∈ df ∧ timestamp_utc r = Some t) ∧
  (∀ r t', r ∈ df → timestamp_utc r = Some t' → t' ≤ t).
Proof.
  revert t. induction df as [|a df IH]; intros t; simpl.
  - split; [done|]. by intros [(r & ?%elem_of_nil & _) _].
  - destruct (timestamp_utc a) as [ta|] eqn:Ha.
    + destruct (max_timestamp df) as [m|] eqn:Hm.
      * destruct (IH m) as [[(rm & Hrm & Htm) Hmax] _]; [done|].
        split.
        -- intros [= <-]. split.
           ++ destruct (Z.max_spec ta m) as [[_ ->]|[_ ->]].
              ** exists rm. split; [by right|done].
              ** exists a. split; [left|done].
           ++ intros r t' [->|Hr]%elem_of_cons Ht'.
              ** rewrite Ha in Ht'. injection Ht' as <-. lia.
              ** specialize (Hmax r t' Hr Ht'). lia.
        -- intros [(r & Hr & Ht) Hall]. f_equal.
           assert (ta ≤ t) by (apply (Hall a); [left|done]).
           assert (m ≤ t) by (apply (Hall rm); [by right|done]).
           apply elem_of_cons in Hr as [->|Hr].
           ++ rewrite Ha in Ht. injection Ht as ->. lia.
           ++ specialize (Hmax r t Hr Ht). lia.
      * assert (∀ r, r ∈ df → timestamp_utc r = None) as Hnone.
        { intros r Hr. destruct (timestamp_utc r) as [tr|] eqn:Hr'; [|done].
          assert (max_timestamp df = Some tr ∨ ∃ u, max_timestamp df = Some u)
            as Hcontra; [|by destruct Hcontra as [?|[? ?]]; congruence].
          clear -Hr Hr'. induction df as [|b df IHdf];
            [by apply elem_of_nil in Hr|].
          simpl. apply elem_of_cons in Hr as [->|Hr].
          - rewrite Hr'. destruct (max_timestamp df); eauto.
          - destruct (IHdf Hr) as [Hs|[u Hs]]; rewrite Hs;
              destruct (timestamp_utc b); eauto. }
        split.
        -- intros [= <-]. split.
           ++ exists a. split; [left|done].
           ++ intros r t' [->|Hr]%elem_of_cons Ht'.
              ** rewrite Ha in Ht'. injection Ht' as <-. lia.
              ** rewrite (Hnone r Hr) in Ht'. done.
        -- intros [(r & Hr & Ht) _]. f_equal.
           apply elem_of_cons in Hr as [->|Hr]; [congruence|].
           rewrite (Hnone r Hr) in Ht. done.
    + rewrite IH. split.
      * intros [(r & Hr & Ht) Hall]. split.
        -- exists r. split; [by right|done].
        -- intros r' t' [->|Hr']%elem_of_cons Ht'; [congruence|].
           by apply (Hall r').
      * intros [(r & Hr & Ht) Hall]. split.
        -- apply elem_of_cons in Hr as [->|Hr]; [congruence|]. eauto.
        -- intros r' t' Hr' Ht'. apply (Hall r'); [by right|done].
Qed.

Lemma rows_of_key_filter (k : option string * option Z) (cutoff : Z)
    (l : list Row) :
  rows_of_key k (filter (λ r, not_before cutoff (timestamp_utc r) = true) l)
  = if not_before cutoff k.2 then rows_of_key k l else 0%nat.
Proof.
  unfold rows_of_key. induction l as [|r l IH].
  - rewrite !filter_nil. by destruct (not_before cutoff k.2).
  - rewrite !filter_cons.
    destruct (decide (store_key r = k)) as [Hk|Hk].
    + assert (timestamp_utc r = k.2) as Ht by (by rewrite <- Hk).
      rewrite Ht. destruct (not_before cutoff k.2) eqn:Hn.
      * rewrite decide_True by done. rewrite filter_cons, decide_True by done.
        rewrite !length_cons. by rewrite IH.
      * rewrite decide_False by done. by rewrite IH.
    + destruct (decide (not_before cutoff (timestamp_utc r) = true)).
      * by rewrite filter_cons, decide_False.
      * done.
Qed.

Lemma rows_of_key_app k l1 l2 :
  rows_of_key k (l1 ++ l2) = (rows_of_key k l1 + rows_of_key k l2)%nat.
Proof. unfold rows_of_key. by rewrite filter_app, length_app. Qed.

(** C6, as stated, fails: the stored reading is fetched again, and the
    file then holds two rows of its (site, timestamp) key. *)
Lemma append_keeps_duplicates :
  rows_of_key (Some "X1", Some (Time.hours 29))
    [reading "X1" (Time.hours 29) 1] = 1%nat
  ∧ rows_of_key (Some "X1", Some (Time.hours 29))
      (append_and_trim (Time.hours 30) [reading "X1" (Time.hours 29) 1]
         (Some [reading "X1" (Time.hours 29) 1]) 24) = 2%nat.
Proof. split; by vm_compute. Qed.

(** C6, amended.  The append concatenates the stored rows and the batch
    and trims by age, without removing duplicates: afterwards the number
    of rows of a (site, timestamp) key is the number of rows of that key
    in the prior store plus the number in the batch when the timestamp is
    not older than the cutoff, and zero otherwise. *)
Theorem append_counts_rows :
  ∀ (now : Z) (df_new : list Row) (file : option (list Row)) (hours : Z)
    (k : option string * option Z),
    rows_of_key k (append_and_trim now df_new file hours)
    = if not_before (now - Time.hours hours) k.2
      then (rows_of_key k (from_option id [] file) + rows_of_key k df_new)%nat
      else 0%nat.
Proof.
  intros now df_new file hours k. unfold append_and_trim.
  rewrite rows_of_key_filter.
  destruct (not_before _ _); [|done].
  destruct file as [df_old|]; simpl; [apply rows_of_key_app|done].
Qed.

(** C7.  Every row that the append writes, be it an old or a new one,
    has a timestamp, and that timestamp is not older than the clock
    minus the retention. *)
Theorem retention_cutoff :
  ∀ (now : Z) (df_new : list Row) (file : option (list Row)) (hours : Z),
    Forall (λ r, ∃ t, timestamp_utc r = Some t ∧ now - Time.hours hours ≤ t)
      (append_and_trim now df_new file hours)
    ∧ Time.hours hours = hours * 3600 * 1000000000.
Proof.
  intros now df_new file hours. split; [|done].
  apply Forall_forall. intros r [Hr _]%list_elem_of_filter.
  destruct (timestamp_utc r) as [t|]; [|done].
  exists t. split; [done|]. simpl in Hr. lia.
Qed.

(** C9, as stated, fails: the newest stored timestamp is [T], and the
    result is one second later. *)
Lemma last_timestamp_is_offset :
  max_timestamp [reading "X1" (Time.seconds 1000) 1;
                 reading "X1" (Time.seconds 3000) 1]
    = Some (Time.seconds 3000)
  ∧ load_last_timestamp (Time.seconds 5000)
      (Some [reading "X1" (Time.seconds 1000) 1;
             reading "X1" (Time.seconds 3000) 1])
    = Some (Time.seconds 3001)
  ∧ Time.seconds 3001 ≠ Time.seconds 3000.
Proof. repeat split; by vm_compute. Qed.

(** C9, amended.  Without a window file the result is the clock minus
    24 hours.  With a file it is the newest recorded timestamp plus one
    second (and NaT when the file records no timestamp). *)
Theorem load_last_timestamp_spec :
  (∀ now, load_last_timestamp now None = Some (now - 24 * 3600 * 1000000000))
  ∧ (∀ now df,
       load_last_timestamp now (Some df)
       = (λ t, t + 1000000000) <$> max_timestamp df)
  ∧ (∀ df t,
       max_timestamp df = Some t ↔
       (∃ r, r ∈ df ∧ timestamp_utc r = Some t) ∧
       (∀ r t', r ∈ df → timestamp_utc r = Some t' → t' ≤ t)).
Proof.
  split; [done|]. split; [done|]. apply max_timestamp_spec.
Qed.

End Store_facts.

(** ** The historical baseline *)

Section Historical_values.
Import Historical.
Context (float_of_string : string → option float).

Local Abbreviation fetch := (fetch_va_dv_chunk float_of_string).

(** A value is read as a flow exactly when it is a string other than
    "" and "Ice" that [float] accepts. *)
Lemma numeric_value_Some (v : DailyValue) (flow : float) :
  numeric_value float_of_string v = Some flow ↔
  ∃ s, dv_value v = Some s ∧ s ≠ "" ∧ s ≠ "Ice"
       ∧ float_of_string s = Some flow.
Proof.
  unfold numeric_value. destruct (dv_value v) as [s|].
  - case_decide as Hs.
    + split; [done|]. intros (s' & [= <-] & ? & ? & _). tauto.
    + split.
      * intros Hf. exists s. repeat split; try done; intros ->; tauto.
      * by intros (s' & [= <-] & _ & _ & ?).
  - split; [done|]. by intros (s' & ? & _).
Qed.

Lemma elem_of_fetch (j : list TimeSeries) (r : DailyRow) :
  r ∈ fetch j ↔
  ∃ ts v, ts ∈ j ∧ v ∈ ts_values ts ∧
    numeric_value float_of_string v = Some (d_flow_cfs r) ∧
    r = mkDailyRow (ts_site_no ts) (ts_site_name ts)
          (String.substring 0 10 (dv_dateTime v)) (d_flow_cfs r)
          (ts_latitude ts).
Proof.
  unfold fetch_va_dv_chunk. rewrite list_elem_of_bind. split.
  - intros (ts & Hr & Hts). apply list_elem_of_omap in Hr as (v & Hv & Hrow).
    unfold daily_row in Hrow.
    destruct (numeric_value float_of_string v) as [flow|] eqn:Hn; [|done].
    simpl in Hrow. injection Hrow as <-. simpl. by exists ts, v.
  - intros (ts & v & Hts & Hv & Hn & Hr). exists ts. split; [|done].
    apply list_elem_of_omap. exists v. split; [done|].
    unfold daily_row. rewrite Hn. simpl. by rewrite Hr at 2.
Qed.

Lemma numeric_value_None (v : DailyValue) :
  numeric_value float_of_string v = None ↔
  dv_value v = None ∨ dv_value v = Some "" ∨ dv_value v = Some "Ice"
  ∨ ∃ s, dv_value v = Some s ∧ float_of_string s = None.
Proof.
  unfold numeric_value. destruct (dv_value v) as [s|]; [|by split; auto].
  case_decide as Hs.
  - split; [|done]. intros _. destruct Hs as [->| ->]; auto.
  - split.
    + intros Hf. do 3 right. by exists s.
    + intros [?|[[= ->]|[[= ->]|(s' & [= <-] & ?)]]]; try done; tauto.
Qed.

End Historical_values.

Section Historical_groups.
Import Historical.
Context (dayofyear_of_date : string → option Z)
        (quantile : float → list float → float).

Local Abbreviation compute :=
  (compute_p90_by_day dayofyear_of_date quantile).
Local Abbreviation readings := (readings_of dayofyear_of_date).

Lemma with_day_rows (df : list DailyRow) (rows : list (DailyRow * Z)) :
  mapM (with_day dayofyear_of_date) df = Some rows →
  ∀ k, fst <$> group_rows k rows = readings k df.
Proof.
  intros Hm%mapM_Some k. unfold group_rows, readings_of.
  induction Hm as [|r p df rows Hp _ IH]; [done|].
  rewrite !filter_cons, <- IH. clear IH.
  unfold with_day in Hp. unfold key_of.
  destruct (dayofyear_of_date (d_date r)) as [day|]; [|done].
  simpl in Hp. injection Hp as <-. simpl.
  destruct (decide (group_key r day = k)) as [->|Hne].
  - by rewrite decide_True.
  - rewrite decide_False; [done|]. by intros [= ?].
Qed.

Lemma compute_is_Some (df : list DailyRow) :
  is_Some (compute df) ↔
  Forall (λ r, is_Some (dayofyear_of_date (d_date r))) df.
Proof.
  unfold compute_p90_by_day.
  assert (is_Some (mapM (with_day dayofyear_of_date) df)
          ↔ Forall (λ r, is_Some (dayofyear_of_date (d_date r))) df) as <-.
  { rewrite mapM_is_Some. apply Forall_proper; [|done].
    intros r. unfold with_day. simpl.
    destruct (dayofyear_of_date (d_date r)); simpl; split;
      intros [? ?]; by eauto. }
  destruct (mapM _ df); simpl; split; intros [? ?]; by eauto.
Qed.

(** The entries of the baseline: one per key that a reading has, with
    the quantile of the flows of the readings of the key. *)
Lemma elem_of_compute (df : list DailyRow) (base : list Baseline)
    (e : Baseline) :
  compute df = Some base →
  e ∈ base ↔
  ∃ site name side day,
    readings (site, name, side, day) df ≠ [] ∧
    e = mkBaseline (Some site) (Some name) (Some side) (Some day)
          (quantile 0.9%float
             (d_flow_cfs <$> readings (site, name, side, day) df)).
Proof.
  unfold compute_p90_by_day.
  destruct (mapM (with_day dayofyear_of_date) df) as [rows|] eqn:Hm; [|done].
  simpl. intros [= <-].
  pose proof (with_day_rows df rows Hm) as Hg.
  assert (∀ k, k ∈ ((λ p, group_key p.1 p.2) <$> rows)
               ↔ readings k df ≠ []) as Hkeys.
  { intros k. rewrite <- Hg. rewrite list_elem_of_fmap. split.
    - intros (p & -> & Hp) Hnil.
      apply fmap_nil_inv in Hnil.
      assert (p ∈ group_rows (group_key p.1 p.2) rows) as Hin
        by (by apply list_elem_of_filter).
      rewrite Hnil in Hin. by apply elem_of_nil in Hin.
    - intros Hne. destruct (group_rows k rows) as [|p l] eqn:E; [done|].
      assert (p ∈ group_rows k rows) as Hin by (rewrite E; left).
      apply list_elem_of_filter in Hin as [? ?]. by exists p. }
  rewrite list_elem_of_fmap. split.
  - intros ([[[site name] side] day] & -> & Hk).
    apply elem_of_stable_sort, elem_of_remove_dups, Hkeys in Hk.
    exists site, name, side, day. split; [done|].
    unfold baseline_entry. by rewrite list_fmap_compose, Hg.
  - intros (site & name & side & day & Hne & ->).
    exists (site, name, side, day). split.
    + unfold baseline_entry. by rewrite list_fmap_compose, Hg.
    + by apply elem_of_stable_sort, elem_of_remove_dups, Hkeys.
Qed.

End Historical_groups.

(** C10.  While the baseline is built, a daily value that is null, empty,
    "Ice" or that [float] refuses yields no row at all.  Every entry of the
    baseline is the quantile of the flows of the readings of its group,
    each of which comes from a value that [float] accepted; and a site and
    day of the year all of whose values are of the refused kind has no
    entry. *)
Theorem non_numeric_values_skipped :
  ∀ (float_of_string : string → option float)
    (dayofyear_of_date : string → option Z)
    (quantile : float → list float → float),
    let fetch := Historical.fetch_va_dv_chunk float_of_string in
    let compute := Historical.compute_p90_by_day dayofyear_of_date quantile in
    let readings := Historical.readings_of dayofyear_of_date in
    (∀ v, Historical.numeric_value float_of_string v = None ↔
          Historical.dv_value v = None ∨ Historical.dv_value v = Some ""
          ∨ Historical.dv_value v = Some "Ice"
          ∨ ∃ s, Historical.dv_value v = Some s ∧ float_of_string s = None)
    ∧ (∀ j r, r ∈ fetch j ↔
         ∃ ts v s, ts ∈ j ∧ v ∈ Historical.ts_values ts ∧
           Historical.dv_value v = Some s ∧ s ≠ "" ∧ s ≠ "Ice" ∧
           float_of_string s = Some (Historical.d_flow_cfs r) ∧
           r = Historical.mkDailyRow (Historical.ts_site_no ts)
                 (Historical.ts_site_name ts)
                 (String.substring 0 10 (Historical.dv_dateTime v))
                 (Historical.d_flow_cfs r) (Historical.ts_latitude ts))
    ∧ (∀ j, is_Some (compute (fetch j)) ↔
            Forall (λ r, is_Some (dayofyear_of_date (Historical.d_date r)))
              (fetch j))
    ∧ (∀ j base e, compute (fetch j) = Some base → e ∈ base →
         ∃ site name side day,
           b_site_no e = Some site ∧ b_site_name e = Some name ∧
           b_north_south e = Some side ∧ b_day_of_year e = Some day ∧
           readings (site, name, side, day) (fetch j) ≠ [] ∧
           (∀ r, r ∈ readings (site, name, side, day) (fetch j) → r ∈ fetch j) ∧
           p90_flow_cfs e
           = quantile 0.9%float
               (Historical.d_flow_cfs
                  <$> readings (site, name, side, day) (fetch j)))
    ∧ (∀ j base site day, compute (fetch j) = Some base →
         (∀ ts v, ts ∈ j → v ∈ Historical.ts_values ts →
                  Historical.ts_site_no ts = site →
                  dayofyear_of_date
                    (String.substring 0 10 (Historical.dv_dateTime v))
                  = Some day →
                  Historical.numeric_value float_of_string v = None) →
         ∀ e, e ∈ base →
              ¬ (b_site_no e = Some site ∧ b_day_of_year e = Some day)).
Proof.
  intros fos doy quantile fetch compute readings.
  subst fetch compute readings.
  assert (∀ j r, r ∈ Historical.fetch_va_dv_chunk fos j ↔
            ∃ ts v s, ts ∈ j ∧ v ∈ Historical.ts_values ts ∧
              Historical.dv_value v = Some s ∧ s ≠ "" ∧ s ≠ "Ice" ∧
              fos s = Some (Historical.d_flow_cfs r) ∧
              r = Historical.mkDailyRow (Historical.ts_site_no ts)
                    (Historical.ts_site_name ts)
                    (String.substring 0 10 (Historical.dv_dateTime v))
                    (Historical.d_flow_cfs r) (Historical.ts_latitude ts))
    as Hfetch.
  { intros j r. rewrite (elem_of_fetch fos). split.
    - intros (ts & v & ? & ? & (s & ? & ? & ? & ?)%(numeric_value_Some fos) & ?).
      by exists ts, v, s.
    - intros (ts & v & s & ? & ? & ? & ? & ? & ? & ?). exists ts, v.
      repeat split; try done. apply (numeric_value_Some fos). by exists s. }
  split; [apply (numeric_value_None fos)|]. split; [exact Hfetch|].
  split; [intros j; apply (compute_is_Some doy quantile)|]. split.
  - intros j base e Hc He.
    apply (elem_of_compute doy quantile _ _ e Hc) in He
      as (site & name & side & day & Hne & ->).
    exists site, name, side, day. repeat split; try done.
    by intros r [_ ?]%list_elem_of_filter.
  - intros j base site day Hc Hnone e He [Hsite Hday].
    apply (elem_of_compute doy quantile _ _ e Hc) in He
      as (site' & name & side & day' & Hne & ->).
    simpl in Hsite, Hday. injection Hsite as ->. injection Hday as ->.
    destruct (Historical.readings_of doy (site, name, side, day)
                (Historical.fetch_va_dv_chunk fos j)) as [|r l] eqn:E;
      [done|].
    assert (r ∈ Historical.readings_of doy (site, name, side, day)
                  (Historical.fetch_va_dv_chunk fos j)) as Hin
      by (rewrite E; left).
    apply list_elem_of_filter in Hin as [Hk Hr].
    apply (elem_of_fetch fos) in Hr as (ts & v & Hts & Hv & Hn & Hrow).
    unfold Historical.key_of in Hk. rewrite Hrow in Hk. simpl in Hk.
    destruct (doy (String.substring 0 10 (Historical.dv_dateTime v)))
      as [d|] eqn:Hd; [|done].
    simpl in Hk. injection Hk as Hs _ _ ->.
    rewrite (Hnone ts v Hts Hv Hs Hd) in Hn. done.
Qed.


Lemma non_numeric_values_skipped_witness :
  ∃ base,
    Historical.compute_p90_by_day sample_dayofyear_of_date sample_quantile
      (Historical.fetch_va_dv_chunk sample_float_of_string sample_response)
    = Some base ∧
    base = [mkBaseline (Some "X1") (Some "Gauge X1") (Some "north") (Some 73)
              30%float] ∧
    ∀ e, e ∈ base → ¬ (b_site_no e = Some "X1" ∧ b_day_of_year e = Some 74).
Proof.
  destruct (non_numeric_values_skipped sample_float_of_string
              sample_dayofyear_of_date sample_quantile)
    as (_ & _ & _ & _ & Hnone).
  eexists. split; [by vm_compute|]. split; [reflexivity|].
  apply (Hnone sample_response); [by vm_compute|].
  intros ts v Hts Hv _ Hday.
  apply list_elem_of_singleton in Hts as ->.
  simpl in Hv.
  repeat (apply elem_of_cons in Hv as [->|Hv]);
    [..|by apply elem_of_nil in Hv]; by vm_compute in Hday |- *.
Defined.

(** * Further properties of the code *)

(** ** The rolling window, continued *)

Section Store_more.
Import Store.

(** X1.  The append loses no recent reading and reorders nothing: what
  it writes is the stored rows followed by the batch, with the rows
  older than the cutoff (or without timestamp) taken out, and every
  stored or new row whose timestamp is at or after the cutoff is
  written. *)
Theorem append_retains_recent :
∀ (now : Z) (df_new : list Row) (file : option (list Row)) (hours : Z),
  append_and_trim now df_new file hours
    `sublist_of` from_option id [] file ++ df_new
  ∧ (∀ r t, r ∈ from_option id [] file ++ df_new →
            timestamp_utc r = Some t → now - Time.hours hours ≤ t →
            r ∈ append_and_trim now df_new file hours).
Proof.
intros now df_new file hours.
assert (match file with
        | Some df_old => df_old ++ df_new
        | None => df_new
        end = from_option id [] file ++ df_new) as Hall
  by (by destruct file).
unfold append_and_trim. rewrite Hall. split; [apply sublist_filter|].
intros r t Hr Ht Hle. apply list_elem_of_filter. split; [|done].
rewrite Ht. simpl. lia.
Qed.

(** X2.  The start of the next fetch lies strictly after every recorded
  timestamp; it is NaT exactly when the file records no timestamp. *)
Theorem next_fetch_after_store :
∀ (now : Z) (df : list Row),
  match load_last_timestamp now (Some df) with
  | Some start =>
      Forall (λ r, ∀ t, timestamp_utc r = Some t → t < start) df
      ∧ ∃ r, r ∈ df ∧ timestamp_utc r = Some (start - Time.seconds 1)
  | None => Forall (λ r, timestamp_utc r = None) df
  end.
Proof.
intros now df. simpl.
destruct (max_timestamp df) as [m|] eqn:Hm; simpl.
- apply max_timestamp_spec in Hm as [(r & Hr & Ht) Hmax]. split.
  + apply Forall_forall. intros r' Hr' t Ht'.
    specialize (Hmax r' t Hr' Ht'). unfold Time.seconds, Time.ns_per_second.
    lia.
  + exists r. split; [done|]. rewrite Ht. f_equal. lia.
- apply Forall_forall. intros r Hr.
  destruct (timestamp_utc r) as [t|] eqn:Ht; [|done].
  assert (is_Some (max_timestamp df)) as [m Hm'].
  { clear Hm. induction df as [|a df IH]; [by apply elem_of_nil in Hr|].
    simpl. apply elem_of_cons in Hr as [->|Hr].
    - rewrite Ht. destruct (max_timestamp df); by eexists.
    - destruct (IH Hr) as [m ->]. destruct (timestamp_utc a); by eexists. }
  congruence.
Qed.

End Store_more.

(** ** Request and response *)

Section Fetch_facts.
Import Fetch.

(** X3.  The request carries its start without seconds.  The start that
  is sent is at most one minute before the instant it is built from,
  and when the newest recorded timestamp falls on a whole minute, the
  second that [load_last_timestamp] adds is lost: the request starts at
  that timestamp itself. *)
Theorem request_start_minute :
∀ (t : Z),
  to_minute t ≤ t < to_minute t + Time.minutes 1
  ∧ to_minute t mod Time.minutes 1 = 0
  ∧ (t mod Time.minutes 1 = 0 → to_minute (t + Time.seconds 1) = t)
  ∧ (t mod Time.minutes 1 = 0 →
     ∀ df now end_time, Store.max_timestamp df = Some t →
       (λ start, (request_window start end_time).1)
         <$> Store.load_last_timestamp now (Some df) = Some t).
Proof.
intros t. unfold to_minute, Time.minutes, Time.seconds, Time.ns_per_second.
change (1 * 60 * 1000000000) with 60000000000.
change (1 * 1000000000) with 1000000000.
assert (t mod 60000000000 = 0 →
        t + 1000000000 - (t + 1000000000) mod 60000000000 = t) as Hmin
  by (Z.div_mod_to_equations; lia).
split; [Z.div_mod_to_equations; lia|].
split; [Z.div_mod_to_equations; lia|]. split; [exact Hmin|].
intros H0 df now end_time Hm. simpl. rewrite Hm. simpl. f_equal.
unfold Time.seconds, Time.ns_per_second.
change (1 * 1000000000) with 1000000000. by apply Hmin.
Qed.

Lemma request_start_minute_witness :
to_minute (Time.seconds 3000 + Time.seconds 1) = Time.seconds 3000.
Proof.
destruct (request_start_minute (Time.seconds 3000)) as (_ & _ & H & _).
apply H. reflexivity.
Defined.

End Fetch_facts.

Section Response_facts.
Import Fetch.
Context (float_of_string : string → option float).

Lemma fetch_va_iv_since_values (j : list Series) :
(λ r, (f_timestamp r, f_flow_cfs r)) <$> fetch_va_iv_since float_of_string j
= (λ v, (v_dateTime v, flow_of float_of_string v)) <$> (j ≫= s_values).
Proof.
unfold fetch_va_iv_since. induction j as [|ts j IH]; [done|].
rewrite !bind_cons, !fmap_app, IH. f_equal.
by rewrite <- list_fmap_compose.
Qed.

Lemma fetch_va_iv_last24_labels (j : list Series) :
Forall (λ r, g_north_south r = "north" ∨ g_north_south r = "south")
  (fetch_va_iv_last24 float_of_string j).
Proof.
apply Forall_forall. intros r Hr. unfold fetch_va_iv_last24 in Hr.
apply list_elem_of_bind in Hr as (ts & Hr & _).
apply list_elem_of_fmap in Hr as (v & -> & _). simpl.
destruct (LATITUDE_MIDPOINT <=? s_latitude ts)%float; auto.
Qed.

Lemma north_south_partition (df : list Reading24) :
Forall (λ r, g_north_south r = "north" ∨ g_north_south r = "south") df →
filter (λ r, g_north_south r = "north") df
  ++ filter (λ r, g_north_south r = "south") df ≡ₚ df.
Proof.
intros Hall.
assert (filter (λ r, g_north_south r = "south") df
        = filter (λ r, ¬ g_north_south r = "north") df) as ->.
{ induction Hall as [|r df Hr _ IH]; [done|].
  rewrite !filter_cons, IH.
  destruct Hr as [Hr|Hr]; rewrite Hr.
  - rewrite decide_False by done. by rewrite decide_False by (by intros []).
  - rewrite decide_True by done. by rewrite decide_True by done. }
apply filter_app_complement.
Qed.

End Response_facts.

(** X4.  The instantaneous fetch keeps every value of the response: the
    frame has one row per value, in the order of the response, with the
    timestamp of the value; the flow is what [float] reads, and null when
    the value is null or [float] refuses it. *)
Theorem fetch_keeps_every_value :
  ∀ (float_of_string : string → option float) (j : list Fetch.Series),
    (λ r, (Fetch.f_timestamp r, Fetch.f_flow_cfs r))
      <$> Fetch.fetch_va_iv_since float_of_string j
    = (λ v, (Fetch.v_dateTime v, Fetch.flow_of float_of_string v))
        <$> (j ≫= Fetch.s_values)
    ∧ length (Fetch.fetch_va_iv_since float_of_string j)
      = length (j ≫= Fetch.s_values)
    ∧ (∀ v, Fetch.flow_of float_of_string v
            = match Fetch.v_value v with
              | Some s => default nan (float_of_string s)
              | None => nan
              end)
    ∧ (∀ ts r, r ∈ Fetch.fetch_va_iv_since float_of_string [ts] →
               Fetch.f_site_no r = Fetch.s_site_no ts ∧
               Fetch.f_site_name r = Fetch.s_site_name ts ∧
               Fetch.f_latitude r = Fetch.s_latitude ts ∧
               Fetch.f_longitude r = Fetch.s_longitude ts).
Proof.
  intros fos j. split; [apply fetch_va_iv_since_values|]. split; [|split].
  - pose proof (f_equal length (fetch_va_iv_since_values fos j)) as H.
    by rewrite !length_fmap in H.
  - intros v. unfold Fetch.flow_of. by destruct (Fetch.v_value v).
  - intros ts r Hr. unfold Fetch.fetch_va_iv_since in Hr.
    rewrite bind_singleton in Hr.
    by apply list_elem_of_fmap in Hr as (v & -> & _).
Qed.

(** X5.  The split by region loses and duplicates no reading of the
    24-hour fetch: whenever the frame is not empty, the two files
    together hold exactly its readings, each in one file, the north file
    those of latitude at least 37.5. *)
Theorem north_south_files_partition :
  ∀ (float_of_string : string → option float) (j : list Fetch.Series),
    let df := Fetch.fetch_va_iv_last24 float_of_string j in
    match Fetch.save_north_south df with
    | Some (north, south) =>
        df ≠ [] ∧ north ++ south ≡ₚ Fetch.drop_label <$> df ∧
        north = Fetch.drop_label
                  <$> filter (λ r, Fetch.g_north_south r = "north") df
    | None => df = []
    end
    ∧ ∀ ts r, r ∈ Fetch.fetch_va_iv_last24 float_of_string [ts] →
        (Fetch.g_north_south r = "north"
         ↔ (Fetch.LATITUDE_MIDPOINT <=? Fetch.s_latitude ts)%float = true).
Proof.
  intros fos j df. split.
  - pose proof (fetch_va_iv_last24_labels fos j) as Hlab. fold df in Hlab.
    unfold Fetch.save_north_south.
    destruct df as [|r df'] eqn:E; [done|].
    split; [done|]. split; [|done].
    rewrite <- fmap_app. by rewrite north_south_partition.
  - intros ts r Hr. unfold Fetch.fetch_va_iv_last24 in Hr.
    rewrite bind_singleton in Hr.
    apply list_elem_of_fmap in Hr as (v & -> & _). simpl.
    destruct (Fetch.LATITUDE_MIDPOINT <=? Fetch.s_latitude ts)%float;
      split; by intros.
Qed.

(** ** The update log *)

Section UpdateLog_facts.
Import UpdateLog.

(** X6.  The update log never holds more than 100 records and always ends
  with the instant of the update; it is the old log with the new
  instant appended, cut at the front: nothing is cut while the old log
  has fewer than 100 records, and after that exactly the oldest ones
  go. *)
Theorem log_update_bounded :
∀ (timestamp : Z) (file : option (list Z)),
  let old := from_option id [] file in
  (length (log_update timestamp file) ≤ MAX_LOG_RECORDS)%nat
  ∧ length (log_update timestamp file)
    = Nat.min (S (length old)) MAX_LOG_RECORDS
  ∧ last (log_update timestamp file) = Some timestamp
  ∧ log_update timestamp file `suffix_of` old ++ [timestamp]
  ∧ ((length old < MAX_LOG_RECORDS)%nat →
     log_update timestamp file = old ++ [timestamp])
  ∧ ((MAX_LOG_RECORDS ≤ length old)%nat →
     log_update timestamp file
     = drop (S (length old) - MAX_LOG_RECORDS) old ++ [timestamp]).
Proof.
intros timestamp file old. unfold log_update, tail. fold old.
rewrite length_app. simpl length.
assert (Hlen : length (drop (length old + 1 - MAX_LOG_RECORDS)
                         (old ++ [timestamp]))
               = Nat.min (S (length old)) MAX_LOG_RECORDS).
{ rewrite length_drop, length_app. simpl. unfold MAX_LOG_RECORDS. lia. }
assert (Hcut : (length old + 1 - MAX_LOG_RECORDS ≤ length old)%nat)
  by (unfold MAX_LOG_RECORDS; lia).
split; [rewrite Hlen; lia|]. split; [exact Hlen|].
rewrite drop_app_le by exact Hcut.
split; [apply last_snoc|].
split; [apply suffix_app, suffix_drop|]. split.
- intros Hlt.
  replace (length old + 1 - MAX_LOG_RECORDS)%nat with 0%nat by lia.
  by rewrite drop_0.
- intros Hge. by rewrite Nat.add_1_r.
Qed.

End UpdateLog_facts.

(** ** The chunks of the historical download *)

Section Chunk_facts.
Import HistoricalFetch.

Lemma chunk_ranges_chained (end_date span : Z) (n : nat) :
0 ≤ span →
∀ a, end_date - a < Z.of_nat n * Time.days 1 ∨ end_date ≤ a →
     ∃ l, chunk_ranges n a end_date span = Some l
          ∧ chained a end_date span l.
Proof.
intros Hspan. unfold chained, Time.days, Time.ns_per_second.
change (1 * 86400 * 1000000000) with 86400000000000.
induction n as [|n IH]; intros a Hfuel; simpl.
- destruct (Z.ltb_spec a end_date) as [Hlt|Hge]; [lia|].
  exists []. split; [done|].
  split; [done|]. split; [done|]. split; [constructor|].
  split; [done|done].
- destruct (Z.ltb_spec a end_date) as [Hlt|Hge].
  + destruct (IH (Z.min (a + span) end_date + 86400000000000))
      as (l & Hl & Hnil & Hhd & Hall & Hnext & Hlast); [lia|].
    change (Time.days 1) with 86400000000000.
    rewrite Hl. simpl. eexists. split; [done|].
    split; [split; [done|lia]|].
    split; [by intros c [= <-]|].
    split; [constructor; [simpl; lia|done]|]. split.
    * intros [|i] c c'; simpl.
      -- intros [= <-] Hc'. simpl. apply Hhd. by rewrite head_lookup.
      -- apply Hnext.
    * intros c. destruct l as [|c0 l'].
      -- simpl. intros [= <-]. simpl.
         assert (end_date ≤ Z.min (a + span) end_date + 86400000000000)
           by (by apply Hnil).
         lia.
      -- rewrite last_cons_cons. apply Hlast.
  + exists []. split; [done|].
    split; [done|]. split; [done|]. split; [constructor|].
    split; [done|done].
Qed.

(** X7.  With chunks that do not run backwards the download loop ends,
  and the ranges it requests form a chain from the start date to the
  end date: the first starts at the start date, each next one starts
  one day after the previous end, none reaches beyond the end date, and
  the last one ends at the end date or less than a day before it.  The
  frame returned is the concatenation of the frames of the ranges. *)
Theorem historical_chunks_chain :
∀ (A : Type) (fetch : Z → Z → list A) (now years_back chunk_years : Z),
  0 ≤ chunk_years →
  ∃ ranges,
    fetch_historical_data fetch now years_back chunk_years
    = Some (ranges ≫= λ c, fetch c.1 c.2) ∧
    let start_date := now - Time.days (years_back * 365) in
    let span := Time.days (chunk_years * 365) in
    (ranges = [] ↔ now ≤ start_date)
    ∧ (∀ c, head ranges = Some c → c.1 = start_date)
    ∧ Forall (λ c, c.1 < now ∧ c.2 = Z.min (c.1 + span) now) ranges
    ∧ (∀ (i : nat) c c', ranges !! i = Some c → ranges !! S i = Some c' →
                         c'.1 = c.2 + Time.days 1)
    ∧ (∀ c, last ranges = Some c → now - Time.days 1 ≤ c.2 ≤ now).
Proof.
intros A fetch now years_back chunk_years Hchunk.
unfold fetch_historical_data.
destruct (chunk_ranges_chained now (Time.days (chunk_years * 365))
            (enough_fuel (now - Time.days (years_back * 365)) now)
            ltac:(unfold Time.days, Time.ns_per_second; lia)
            (now - Time.days (years_back * 365)))
  as (l & Hl & Hchain).
{ unfold enough_fuel, Time.days, Time.ns_per_second.
  change (1 * 86400 * 1000000000) with 86400000000000.
  destruct (Z.le_gt_cases now (now - years_back * 365 * 86400 * 1000000000))
    as [Hle|Hgt]; [by right|left].
  rewrite Z2Nat.id by (Z.div_mod_to_equations; lia).
  Z.div_mod_to_equations. lia. }
exists l. rewrite Hl. split; [done|]. exact Hchain.
Qed.

Lemma historical_chunks_chain_witness :
∃ ranges,
  fetch_historical_data (λ a b, [(a, b)]) noon_day_200 YEARS_BACK 5
  = Some ranges ∧ length ranges = 4%nat ∧
  last ranges
  = Some (noon_day_200 - Time.days 1822, noon_day_200).
Proof.
destruct (historical_chunks_chain _ (λ a b, [(a, b)]) noon_day_200
            YEARS_BACK 5 ltac:(lia)) as (ranges & Hr & _).
eexists. split; [exact Hr|].
assert (fetch_historical_data (λ a b, [(a, b)]) noon_day_200 YEARS_BACK 5
        = Some [(noon_day_200 - Time.days 7300, noon_day_200 - Time.days 5475);
                (noon_day_200 - Time.days 5474, noon_day_200 - Time.days 3649);
                (noon_day_200 - Time.days 3648, noon_day_200 - Time.days 1823);
                (noon_day_200 - Time.days 1822, noon_day_200)]) as Hv
  by (by vm_compute).
rewrite Hr in Hv. injection Hv as ->. split; reflexivity.
Defined.

End Chunk_facts.

(** ** The rate frame, continued *)

Section Sort_commute.
Context {A : Type} (le : A → A → bool).
Context `{!Transitive (λ u v : A, le u v = true)}.
Context (P : A → Prop) `{!∀ x, Decision (P x)}.

Local Abbreviation R := (λ u v : A, le u v = true).

Lemma insert_by_head (x : A) (l : list A) :
Forall (R x) l → insert_by le x l = x :: l.
Proof.
destruct l as [|y l]; [done|]. intros [Hy _]%Forall_cons. simpl.
by rewrite Hy.
Qed.

Lemma filter_insert_by (x : A) (l : list A) :
StronglySorted R l →
filter P (insert_by le x l)
= if decide (P x) then insert_by le x (filter P l) else filter P l.
Proof.
induction 1 as [|y l Hs IH Hall]; simpl.
- rewrite filter_cons, filter_nil. by destruct (decide (P x)).
- destruct (le x y) eqn:Hxy.
  + rewrite (filter_cons _ x). destruct (decide (P x)); [|done].
    rewrite insert_by_head; [done|].
    apply Forall_forall. intros z [_ Hz]%list_elem_of_filter.
    apply elem_of_cons in Hz as [->|Hz]; [done|].
    rewrite Forall_forall in Hall.
    apply (transitivity (R := λ u v : A, le u v = true) Hxy (Hall z Hz)).
  + rewrite (filter_cons _ y), IH, (filter_cons _ y).
    destruct (decide (P x)), (decide (P y)); simpl; try done.
    by rewrite Hxy.
Qed.

(** Selecting the rows of a group and sorting commute. *)
Lemma filter_stable_sort (le_total : ∀ x y, le x y = false → le y x = true)
  (l : list A) :
filter P (stable_sort le l) = stable_sort le (filter P l).
Proof.
induction l as [|x l IH]; [done|]. simpl.
rewrite filter_insert_by, IH, filter_cons.
- by destruct (decide (P x)).
- apply Sorted_StronglySorted; [done|]. by apply stable_sort_sorted.
Qed.

End Sort_commute.

Lemma filter_all {A} (P : A → Prop) `{!∀ x, Decision (P x)} (l : list A) :
  Forall P l → filter P l = l.
Proof.
  induction 1 as [|x l Hx _ IH]; [done|].
  by rewrite filter_cons, decide_True, IH.
Qed.


Lemma NoDup_fmap_elem {A B} (f : A → B) (l : list A) (x y : A) :
  NoDup (f <$> l) → x ∈ l → y ∈ l → f x = f y → x = y.
Proof.
  intros Hnd [i Hi]%list_elem_of_lookup [j Hj]%list_elem_of_lookup Heq.
  assert (i = j) as ->; [|congruence].
  apply (NoDup_lookup (f <$> l) i j (f x)); [done|..];
    rewrite list_lookup_fmap; [by rewrite Hi|by rewrite Hj, Heq].
Qed.

Section Rate_frame.
Import Frame.

Lemma site_no_without_derived_eq (l1 l2 : list Row) :
without_derived <$> l1 = without_derived <$> l2 →
site_no <$> l1 = site_no <$> l2.
Proof.
intros H. apply (f_equal (fmap site_no)) in H.
by rewrite <- !list_fmap_compose in H.
Qed.

Lemma add_pct_changes_single_site (k : string) (g : list Row) :
Forall (λ r, site_no r = Some k) g →
RateOfChange.add_pct_changes g
= foldl (λ g '(label, window),
           assign_group (RateOfChange.column_name label)
             (RateOfChange.pct_change window) g)
    g RateOfChange.WINDOWS.
Proof.
intros Hall.
rewrite <- (filter_all (λ r, site_no r = Some k) g Hall) at 2.
fold (group_of k g). rewrite <- group_of_add_pct_changes.
symmetry. apply filter_all.
pose proof (site_no_without_derived_eq _ _
              (without_derived_add_pct_changes g)) as Hsites.
assert (Forall (λ s, s = Some k) (site_no <$> g)) as H1
  by (by apply Forall_fmap).
rewrite <- Hsites in H1. by apply Forall_fmap in H1.
Qed.

Lemma group_of_sort_commute (k : string) (df : list Row) :
group_of k (sort_values_site_time df)
= sort_values_site_time (group_of k df).
Proof.
apply (filter_stable_sort site_time_leb (λ r, site_no r = Some k)).
apply site_time_leb_total.
Qed.

(** X8.  The rate of change of a gauge depends on the readings of that
  gauge alone: the rows of a site in the frame computed on the whole
  table are the frame computed on the readings of the site by
  themselves. *)
Theorem rate_of_change_per_site :
∀ (df : list Row) (k : string),
  group_of k (Process.compute_rate_of_change df)
  = Process.compute_rate_of_change (group_of k df).
Proof.
intros df k. unfold Process.compute_rate_of_change.
rewrite group_of_add_pct_changes, group_of_sort_commute.
symmetry. apply (add_pct_changes_single_site k).
apply Forall_forall. intros r Hr.
apply elem_of_stable_sort in Hr.
by apply list_elem_of_filter in Hr as [? _].
Qed.


Lemma sort_values_site_time_order_free (df1 df2 : list Row) :
df1 ≡ₚ df2 →
NoDup ((λ r, (site_no r, timestamp_utc r)) <$> df1) →
sort_values_site_time df1 = sort_values_site_time df2.
Proof.
intros Hperm Hnd.
apply (StronglySorted_unique_strong (λ r1 r2, site_time_leb r1 r2 = true)).
- intros x1 x2 Hx1%elem_of_stable_sort Hx2%elem_of_stable_sort H12 H21.
  rewrite <- Hperm in Hx2.
  apply (NoDup_fmap_elem _ _ _ _ Hnd Hx1 Hx2).
  unfold site_time_leb in H12, H21.
  rewrite (site_compare_antisym (site_no x2)) in H21.
  destruct (site_compare (site_no x1) (site_no x2)) eqn:Hc; try done.
  apply site_compare_eq in Hc. f_equal; [done|].
  simpl in H21.
  destruct (timestamp_utc x1), (timestamp_utc x2); simpl in *;
    try done. f_equal. lia.
- apply Sorted_StronglySorted; [apply _|].
  apply stable_sort_sorted, site_time_leb_total.
- apply Sorted_StronglySorted; [apply _|].
  apply stable_sort_sorted, site_time_leb_total.
- unfold sort_values_site_time. by rewrite !stable_sort_perm.
Qed.

(** X10.  When no site has two readings with the same timestamp, the
  result does not depend on the order of the rows of the input
  table. *)
Theorem rate_of_change_order_free :
∀ (df1 df2 : list Row),
  df1 ≡ₚ df2 →
  NoDup ((λ r, (site_no r, timestamp_utc r)) <$> df1) →
  Process.compute_rate_of_change df1 = Process.compute_rate_of_change df2
  ∧ ∀ sorter, Analyze.compute_rate_of_change_with sorter df1
              = Analyze.compute_rate_of_change_with sorter df2.
Proof.
intros df1 df2 Hperm Hnd.
pose proof (sort_values_site_time_order_free _ _ Hperm Hnd) as Hs.
split.
- unfold Process.compute_rate_of_change. by rewrite Hs.
- intros sorter. unfold Analyze.compute_rate_of_change_with,
    Analyze.latest_with. by rewrite Hs.
Qed.

Lemma rate_of_change_order_free_witness :
Analyze.compute_rate_of_change
  [reading "X1" (Time.minutes 5) 12; reading "X1" 0 10;
   reading "X2" 0 7]
= Analyze.compute_rate_of_change
    [reading "X2" 0 7; reading "X1" 0 10;
     reading "X1" (Time.minutes 5) 12].
Proof.
apply (rate_of_change_order_free
         [reading "X1" (Time.minutes 5) 12; reading "X1" 0 10;
          reading "X2" 0 7]
         [reading "X2" 0 7; reading "X1" 0 10;
          reading "X1" (Time.minutes 5) 12]).
- etrans; [apply Permutation_swap|].
  etrans; [apply perm_skip, Permutation_swap|].
  apply Permutation_swap.
- refine (bool_decide_unpack _ _). by vm_compute.
Defined.

End Rate_frame.

(** ** The baseline table, continued *)

Section Baseline_facts.
Import Historical.
Context (dayofyear_of_date : string → option Z)
      (quantile : float → list float → float).

Local Abbreviation compute :=
(compute_p90_by_day dayofyear_of_date quantile).
Local Abbreviation readings := (readings_of dayofyear_of_date).

Lemma compute_keys (df : list DailyRow) (base : list Baseline) :
compute df = Some base →
∃ keys,
  NoDup keys ∧
  (∀ k, k ∈ keys → readings k df ≠ []) ∧
  (λ e, (b_site_no e, b_site_name e, b_north_south e, b_day_of_year e))
    <$> base = entry_key <$> keys.
Proof.
unfold compute_p90_by_day.
destruct (mapM (with_day dayofyear_of_date) df) as [rows|] eqn:Hm; [|done].
simpl. intros [= <-].
pose proof (with_day_rows dayofyear_of_date df rows Hm) as Hg.
exists (stable_sort key_leb
          (remove_dups ((λ p, group_key p.1 p.2) <$> rows))).
split; [|split].
- rewrite stable_sort_perm. apply NoDup_remove_dups.
- intros k Hk. rewrite elem_of_stable_sort, elem_of_remove_dups in Hk.
  apply list_elem_of_fmap in Hk as (p & -> & Hp).
  rewrite <- Hg. intros Hnil%fmap_nil_inv.
  assert (p ∈ group_rows (group_key p.1 p.2) rows) as Hin
    by (by apply list_elem_of_filter).
  rewrite Hnil in Hin. by apply elem_of_nil in Hin.
- rewrite <- list_fmap_compose. apply list_fmap_ext.
  by intros _ [[[site name] side] day] _.
Qed.

End Baseline_facts.

(** X11.  The baseline has one entry per group of site, site name, region
    and day of the year.  When every site of the history has a single
    name and lies on one side of the latitude midpoint, it has one entry
    per site and day, and the comparison against it emits exactly one row
    per prepared reading, in order. *)
Theorem baseline_one_entry_per_group :
  ∀ (dayofyear_of_date : string → option Z)
    (quantile : float → list float → float)
    (df : list Historical.DailyRow) (base : list Baseline),
    Historical.compute_p90_by_day dayofyear_of_date quantile df = Some base →
    NoDup ((λ e, (b_site_no e, b_site_name e, b_north_south e,
                  b_day_of_year e)) <$> base)
    ∧ ((∀ r r', r ∈ df → r' ∈ df →
          Historical.d_site_no r = Historical.d_site_no r' →
          Historical.d_site_name r = Historical.d_site_name r' ∧
          Historical.north_south (Historical.d_lat r)
          = Historical.north_south (Historical.d_lat r')) →
       NoDup (Join.baseline_key <$> base) ∧
       ∀ cur, Compare.result_columns <$> Compare.compare_to_historical cur base
              = Compare.current_columns <$> cur).
Proof.
  intros doy quantile df base Hc.
  destruct (compute_keys doy quantile df base Hc) as (keys & Hnd & Hne & Hkeys).
  split.
  - rewrite Hkeys. apply NoDup_fmap_2; [|done].
    intros [[[s1 n1] r1] d1] [[[s2 n2] r2] d2]. simpl. by intros [= -> -> -> ->].
  - intros Hsingle.
    assert (NoDup (Join.baseline_key <$> base)) as Hbk.
    { assert (Join.baseline_key <$> base
              = (λ q, (q.1.1.1, q.2)) <$> (entry_key <$> keys)) as ->.
      { rewrite <- Hkeys, <- list_fmap_compose. done. }
      rewrite <- list_fmap_compose.
      apply NoDup_fmap_2_strong; [|done].
      intros [[[s1 n1] r1] d1] [[[s2 n2] r2] d2] H1 H2. simpl.
      intros [= -> ->].
      destruct (Historical.readings_of doy (s2, n1, r1, d2) df)
        as [|x1 l1] eqn:E1; [by destruct (Hne _ H1)|].
      destruct (Historical.readings_of doy (s2, n2, r2, d2) df)
        as [|x2 l2] eqn:E2; [by destruct (Hne _ H2)|].
      assert (x1 ∈ Historical.readings_of doy (s2, n1, r1, d2) df) as Hx1
        by (rewrite E1; left).
      assert (x2 ∈ Historical.readings_of doy (s2, n2, r2, d2) df) as Hx2
        by (rewrite E2; left).
      apply list_elem_of_filter in Hx1 as [Hk1 Hx1].
      apply list_elem_of_filter in Hx2 as [Hk2 Hx2].
      unfold Historical.key_of, Historical.group_key in Hk1, Hk2.
      destruct (doy (Historical.d_date x1)); [|done].
      destruct (doy (Historical.d_date x2)); [|done].
      simpl in Hk1, Hk2.
      injection Hk1 as Hs1 Hn1 Hr1 _. injection Hk2 as Hs2 Hn2 Hr2 _.
      destruct (Hsingle x1 x2 Hx1 Hx2) as [Hn Hr]; [congruence|].
      congruence. }
    split; [done|]. intros cur. unfold Compare.compare_to_historical.
    rewrite <- list_fmap_compose.
    rewrite <- (merge_left_one_to_one cur base Hbk) at 2.
    by rewrite <- list_fmap_compose.
Qed.

Lemma baseline_one_entry_per_group_witness :
  ∃ base,
    Historical.compute_p90_by_day sample_dayofyear_of_date sample_quantile
      (Historical.fetch_va_dv_chunk sample_float_of_string sample_response)
    = Some base ∧
    NoDup ((λ e, (b_site_no e, b_site_name e, b_north_south e,
                  b_day_of_year e)) <$> base).
Proof.
  eexists. split; [by vm_compute|].
  eapply (baseline_one_entry_per_group sample_dayofyear_of_date
            sample_quantile
            (Historical.fetch_va_dv_chunk sample_float_of_string
               sample_response)).
  by vm_compute.
Defined.

(** ** The last row of each group *)

Section LastBy_facts.
Context {A : Type} (key : A → option string).

Lemma last_by_elem (l : list A) (x : A) :
x ∈ last_by key l → x ∈ l ∧ is_Some (key x).
Proof.
induction l as [|a l IH]; simpl; [by intros ?%elem_of_nil|].
destruct (key a) as [k|] eqn:Ha.
- case_decide.
  + intros [->|Hx]%elem_of_cons.
    * split; [left|by rewrite Ha].
    * destruct (IH Hx). split; [by right|done].
  + intros Hx. destruct (IH Hx). split; [by right|done].
- intros Hx. destruct (IH Hx). split; [by right|done].
Qed.

Lemma last_by_complete (l : list A) (k : string) :
(∃ x, x ∈ l ∧ key x = Some k) →
∃ x, x ∈ last_by key l ∧ key x = Some k.
Proof.
induction l as [|a l IH]; simpl.
- by intros (x & ?%elem_of_nil & _).
- intros (x & Hx & Hk).
  destruct (decide (Forall (λ y, key y ≠ Some k) l)) as [Hall|Hex].
  + apply elem_of_cons in Hx as [->|Hx].
    * rewrite Hk, decide_True by done. exists a. split; [left|done].
    * rewrite Forall_forall in Hall. by destruct (Hall x Hx).
  + destruct IH as (x' & Hx' & Hk').
    { apply not_Forall_Exists in Hex; [|apply _].
      apply Exists_exists in Hex as (y & Hy & Hky).
      exists y. split; [done|].
      destruct (decide (key y = Some k)); [done|]. by destruct Hky. }
    exists x'. split; [|done].
    destruct (key a) as [k'|]; [|done].
    case_decide; [by right|done].
Qed.

Lemma last_by_NoDup (l : list A) : NoDup (key <$> last_by key l).
Proof.
induction l as [|a l IH]; simpl; [constructor|].
destruct (key a) as [k|] eqn:Ha; [|done].
case_decide as Hall; [|done].
rewrite fmap_cons, Ha. constructor; [|done].
intros (x & Hk & Hx)%list_elem_of_fmap.
apply last_by_elem in Hx as [Hx _].
rewrite Forall_forall in Hall. by destruct (Hall x Hx).
Qed.

Lemma last_by_last (R : relation A) `{!Reflexive R} (l : list A) (x y : A) :
StronglySorted R l →
x ∈ last_by key l → y ∈ l → key y = key x → R y x.
Proof.
induction 1 as [|a l Hs IH Hall]; simpl; [by intros ?%elem_of_nil|].
intros Hx Hy Hkey.
assert (x ∈ last_by key l → R y x) as Htail.
{ intros Hin. apply elem_of_cons in Hy as [->|Hy]; [|by apply IH].
  rewrite Forall_forall in Hall. apply Hall.
  by apply last_by_elem in Hin as [? _]. }
destruct (key a) as [k|] eqn:Ha; [|by apply Htail].
case_decide as Hnone; [|by apply Htail].
apply elem_of_cons in Hx as [->|Hx]; [|by apply Htail].
apply elem_of_cons in Hy as [->|Hy]; [done|].
rewrite Forall_forall in Hnone. destruct (Hnone y Hy). congruence.
Qed.

End LastBy_facts.

(** ** The whole of process_gauge_data.py *)

Section ProcessMain_facts.
Import ProcessCompare ProcessMain.

Global Instance merged_time_leb_trans :
Transitive (λ p1 p2, merged_time_leb p1 p2 = true).
Proof. intros p1 p2 p3. apply time_leb_trans. Qed.

Global Instance merged_time_leb_refl :
Reflexive (λ p1 p2, merged_time_leb p1 p2 = true).
Proof. intros p. apply time_leb_refl. Qed.

Lemma sort_merged_sorter : merged_sorter sort_merged.
Proof.
intros df. split.
- apply stable_sort_perm.
- apply stable_sort_sorted. intros x y. apply time_leb_total.
Qed.

(** A reading of the input that the preparation keeps. *)
Lemma elem_of_prepared (df : list Row) (r' : Row) :
r' ∈ Join.prepare_current_data (Process.compute_rate_of_change df) →
∃ r, r ∈ df ∧ Compare.complete r ∧
     site_no r' = site_no r ∧ site_name r' = site_name r ∧
     timestamp_utc r' = timestamp_utc r ∧ flow_cfs r' = flow_cfs r.
Proof.
unfold Join.prepare_current_data.
intros [Hc Hr']%list_elem_of_filter.
apply list_elem_of_fmap in Hr' as (row & -> & Hrow).
apply elem_of_rate_frame in Hrow as (r & Hr & Heq).
apply without_derived_fields in Heq as (Hs & Hn & Ht & Hf).
exists r. split; [done|]. simpl in *.
destruct Hc as (Hd & Hflow & Hsite).
rewrite fmap_is_Some in Hd.
repeat split; try done; unfold Compare.complete; try congruence.
Qed.

Lemma prepared_of_elem (df : list Row) (r : Row) :
r ∈ df → Compare.complete r →
∃ r', r' ∈ Join.prepare_current_data (Process.compute_rate_of_change df) ∧
      site_no r' = site_no r ∧ timestamp_utc r' = timestamp_utc r ∧
      flow_cfs r' = flow_cfs r.
Proof.
intros Hr (Ht & Hf & Hs).
apply rate_frame_of_elem in Hr as (row & Hrow & Heq).
apply without_derived_fields in Heq as (Hs' & _ & Ht' & Hf').
exists (set_day_of_year (Time.dayofyear <$> timestamp_utc row) row).
split; [|done].
unfold Join.prepare_current_data. apply list_elem_of_filter. split.
- simpl. rewrite fmap_is_Some. repeat split; congruence.
- by apply (list_elem_of_fmap_2
              (λ r, set_day_of_year (Time.dayofyear <$> timestamp_utc r) r)).
Qed.

Lemma elem_of_final_frame (df : list Row) (hist : option (list Baseline))
  (p : Processed) :
p ∈ final_frame df hist →
p_row p ∈ Join.prepare_current_data (Process.compute_rate_of_change df)
∧ p_percentile p = (flow_cfs (p_row p) / p_p90_flow_cfs p)%float
∧ (hist = None → p_percentile p = nan).
Proof.
unfold final_frame. destruct hist as [df_hist|].
- intros (m & -> & Hm)%list_elem_of_fmap.
  apply elem_of_merge_left in Hm as [Hm _]. by repeat split.
- intros (r & -> & Hr)%list_elem_of_fmap. simpl.
  split; [done|]. split; [|done]. by rewrite F64_facts.div_nan_r.
Qed.

Lemma final_frame_of_prepared (df : list Row) (hist : option (list Baseline))
  (r' : Row) :
r' ∈ Join.prepare_current_data (Process.compute_rate_of_change df) →
∃ p, p ∈ final_frame df hist ∧ p_row p = r'.
Proof.
intros Hr'. unfold final_frame. destruct hist as [df_hist|].
- destruct (merge_left_keeps _ df_hist _ Hr') as [ob Hm].
  eexists. split; [by apply list_elem_of_fmap_2|done].
- eexists. split; [by apply list_elem_of_fmap_2|done].
Qed.

(** X12.  process_gauge_data.py writes one row per gauge: for any sort on
  the timestamp, the output has exactly one row for every site that has
  a reading with a timestamp and a flow, and no other row (a gauge
  whose readings all lack a flow is absent); the row has the flow and
  timestamp of such a reading, none of them later; its percentile is
  the flow over a baseline value, and null without baseline file. *)
Theorem process_one_row_per_gauge :
∀ (sorter : list Processed → list Processed) (df : list Row)
  (hist : option (list Baseline)) (out : list Output),
  merged_sorter sorter →
  main sorter (Some df) hist = Some out →
  NoDup (o_site_no <$> out)
  ∧ (∀ k, Some k ∈ o_site_no <$> out
          ↔ ∃ r, r ∈ df ∧ Compare.complete r ∧ site_no r = Some k)
  ∧ (∀ o, o ∈ out →
       ∃ r, r ∈ df ∧ Compare.complete r ∧
            site_no r = o_site_no o ∧
            timestamp_utc r = o_timestamp_utc o ∧
            flow_cfs r = o_flow_cfs o ∧
            Forall (λ r', Compare.complete r' → site_no r' = site_no r →
                          Time.leb (timestamp_utc r') (timestamp_utc r) = true)
              df)
  ∧ (hist = None → Forall (λ o, o_percentile o = nan) out).
Proof.
intros sorter df hist out Hs Hmain.
assert (out = select <$> last_by (site_no ∘ p_row)
                           (sorter (final_frame df hist))) as ->.
{ unfold main in Hmain. destruct df; [done|]. by injection Hmain as <-. }
assert (o_site_no <$> (select <$> last_by (site_no ∘ p_row)
                                    (sorter (final_frame df hist)))
        = (site_no ∘ p_row) <$> last_by (site_no ∘ p_row)
                                  (sorter (final_frame df hist))) as Hsites
  by (by rewrite <- list_fmap_compose).
rewrite Hsites. split; [apply last_by_NoDup|]. split; [|split].
- intros k. split.
  + intros (p & Hk & Hp)%list_elem_of_fmap.
    apply last_by_elem in Hp as [Hp _].
    rewrite (proj1 (Hs _)) in Hp.
    apply elem_of_final_frame in Hp as (Hp & _).
    apply elem_of_prepared in Hp as (r & Hr & Hc & Hsite & _).
    exists r. split; [done|]. split; [done|]. unfold compose in Hk.
    congruence.
  + intros (r & Hr & Hc & Hk).
    destruct (prepared_of_elem df r Hr Hc) as (r' & Hr' & Hsite & _).
    destruct (final_frame_of_prepared df hist r' Hr') as (p & Hp & <-).
    destruct (last_by_complete (site_no ∘ p_row)
                (sorter (final_frame df hist)) k) as (p' & Hp' & Hk').
    { exists p. split; [by rewrite (proj1 (Hs _))|].
      unfold compose. congruence. }
    apply list_elem_of_fmap. exists p'. by split.
- intros o (p & -> & Hp)%list_elem_of_fmap.
  pose proof Hp as Hlast.
  apply last_by_elem in Hp as [Hp _]. rewrite (proj1 (Hs _)) in Hp.
  apply elem_of_final_frame in Hp as (Hp & _).
  apply elem_of_prepared in Hp as (r & Hr & Hc & Hsite & _ & Htime & Hflow).
  exists r. simpl. do 5 (split; [done|]).
  apply Forall_forall. intros r0 Hr0 Hc0 Hsite0.
  destruct (prepared_of_elem df r0 Hr0 Hc0) as (r0' & Hr0' & Hs0 & Ht0 & _).
  destruct (final_frame_of_prepared df hist r0' Hr0') as (p0 & Hp0 & <-).
  assert (merged_time_leb p0 p = true) as Hle.
  { assert (StronglySorted (λ p1 p2, merged_time_leb p1 p2 = true)
              (sorter (final_frame df hist))) as Hss.
    { apply Sorted_StronglySorted; [apply _|]. apply Hs. }
    assert (p0 ∈ sorter (final_frame df hist)) as Hin
      by (by rewrite (proj1 (Hs _))).
    apply (last_by_last (site_no ∘ p_row)
             (λ p1 p2, merged_time_leb p1 p2 = true) _ p p0 Hss Hlast Hin).
    unfold compose. congruence. }
  unfold merged_time_leb, Frame.time_leb in Hle. congruence.
- intros Hnone. apply Forall_forall.
  intros o (p & -> & Hp)%list_elem_of_fmap.
  apply last_by_elem in Hp as [Hp _]. rewrite (proj1 (Hs _)) in Hp.
  apply elem_of_final_frame in Hp as (_ & _ & Hnan). simpl. by apply Hnan.
Qed.

Lemma process_one_row_per_gauge_witness :
∃ out,
  main sort_merged
    (Some [reading "X1" noon_day_200 80; reading "X5" noon_day_200 nan;
           reading "X1" (noon_day_200 + Time.minutes 5) 90])
    None = Some out
  ∧ NoDup (o_site_no <$> out)
  ∧ Forall (λ o, o_percentile o = nan) out.
Proof.
assert (∃ out,
          main sort_merged
            (Some [reading "X1" noon_day_200 80;
                   reading "X5" noon_day_200 nan;
                   reading "X1" (noon_day_200 + Time.minutes 5) 90])
            None = Some out) as [out Hout]
  by (vm_compute; eexists; reflexivity).
exists out. split; [exact Hout|].
destruct (process_one_row_per_gauge _ _ _ out sort_merged_sorter Hout)
  as (Hnd & _ & _ & Hnan).
split; [exact Hnd|]. by apply Hnan.
Defined.

End ProcessMain_facts.

(** ** The whole of compare_to_p90.py *)

Section CompareMain_facts.
Import Join Compare.

(** X13.  The preparation keeps exactly the readings with a site, a
  timestamp and a flow, sets their day of the year from the timestamp,
  and preparing again changes nothing. *)
Theorem prepare_current_data_kept :
∀ (df : list Row),
  Forall (λ r, ∃ k t, site_no r = Some k ∧ timestamp_utc r = Some t ∧
                      day_of_year r = Some (Time.dayofyear t) ∧
                      F64.is_null (flow_cfs r) = false)
    (prepare_current_data df)
  ∧ current_columns <$> prepare_current_data df
    = current_columns <$> filter complete df
  ∧ prepare_current_data (prepare_current_data df) = prepare_current_data df.
Proof.
intros df. split; [|split].
- apply Forall_forall. intros r' [Hc Hr']%list_elem_of_filter.
  apply list_elem_of_fmap in Hr' as (r & -> & _). simpl in *.
  destruct Hc as ([d Hd] & Hf & [k Hk]).
  destruct (timestamp_utc r) as [t|]; [|done]. by exists k, t.
- apply prepare_current_data_columns.
- unfold prepare_current_data, Join.prepare_current_data.
  induction df as [|r df IH]; [done|].
  rewrite fmap_cons, filter_cons. case_decide as Hc; [|exact IH].
  rewrite fmap_cons, filter_cons. simpl in *.
  rewrite decide_True by done. rewrite IH. f_equal.
Qed.

Lemma region_of_prepared (df : list Row) (r' : Row) :
r' ∈ prepare_current_data df →
∃ r, r ∈ df ∧ complete r ∧ current_columns r' = current_columns r.
Proof.
intros Hr'. apply (list_elem_of_fmap_2 current_columns) in Hr'.
rewrite prepare_current_data_columns in Hr'.
apply list_elem_of_fmap in Hr' as (r & Heq & [Hc Hr]%list_elem_of_filter).
by exists r.
Qed.

(** X14.  When the comparison writes its summary, every row of it comes
  from a complete reading of the north or of the south file and carries
  the region of that file; nothing is written when no current file
  holds a row, or when the baseline file is missing or empty. *)
Theorem summary_rows_have_region :
∀ (north south : option (list Row)) (hist : option (list Baseline)),
  match main north south hist with
  | Some out =>
      Forall (λ c,
        (c_region c = Some "north" ∧
         ∃ r, r ∈ from_option id [] north ∧ complete r ∧
              c_site_no c = site_no r ∧ c_timestamp_utc c = timestamp_utc r
              ∧ c_flow_cfs c = flow_cfs r)
        ∨ (c_region c = Some "south" ∧
           ∃ r, r ∈ from_option id [] south ∧ complete r ∧
                c_site_no c = site_no r ∧
                c_timestamp_utc c = timestamp_utc r ∧
                c_flow_cfs c = flow_cfs r)) out
  | None =>
      load_current_data north south = [] ∨ hist = None ∨ hist = Some []
  end.
Proof.
intros north south hist. unfold main.
destruct (load_current_data north south) as [|r0 cur] eqn:Hload;
  [by left|].
destruct hist as [[|b0 hist]|]; simpl;
  [right; by right| |right; by left].
apply Forall_forall. intros c (m & -> & Hm)%list_elem_of_fmap.
apply elem_of_merge_left in Hm as [Hm _].
apply region_of_prepared in Hm as (r & Hr & Hc & Hcols).
rewrite <- Hload in Hr. unfold load_current_data in Hr.
injection Hcols as Hs Hn Ht Hf Hg. simpl.
apply elem_of_app in Hr as [Hr|Hr].
- left. destruct north as [rows|]; [|by apply elem_of_nil in Hr].
  simpl in Hr. apply list_elem_of_fmap in Hr as (r1 & -> & Hr1).
  split; [by rewrite Hg|]. exists r1.
  split; [done|]. split; [exact Hc|]. by repeat split.
- right. destruct south as [rows|]; [|by apply elem_of_nil in Hr].
  simpl in Hr. apply list_elem_of_fmap in Hr as (r1 & -> & Hr1).
  split; [by rewrite Hg|]. exists r1.
  split; [done|]. split; [exact Hc|]. by repeat split.
Qed.



End CompareMain_facts.

(** ** One update and the files *)

Section Pipeline_facts.
Import Pipeline.

Lemma update_files (sorter : list Row → list Row) (w : World) (fs : Files) :
north_va (update sorter w fs) = north_va fs
∧ south_va (update sorter w fs) = south_va fs
∧ historical_p90 (update sorter w fs) = historical_p90 fs
∧ gauge_data (update sorter w fs)
  = Store.main (now_load w) (now_append w) (service w) (gauge_data fs)
∧ update_log (update sorter w fs)
  = Some (UpdateLog.log_update (now_log w) (update_log fs))
∧ (north_va fs = None → south_va fs = None →
   north_rate (update sorter w fs) = north_rate fs
   ∧ south_rate (update sorter w fs) = south_rate fs
   ∧ high_flow_summary (update sorter w fs) = high_flow_summary fs).
Proof.
do 5 (split; [done|]). intros HN HS. simpl. by rewrite HN, HS.
Qed.

(** X16.  The update fetches into data/gauge_data.csv, but its analysis
  steps read data/north_va.csv and data/south_va.csv, which no step of
  the update writes.  However many updates run, the two region files
  and the baseline file stay as they were; and when both region files
  are absent, the rate-of-change files and the high-flow summary are
  never written, whatever the service returns. *)
Theorem update_never_writes_region_files :
∀ (sorter : list Row → list Row) (ws : list World) (fs : Files),
  north_va (updates sorter ws fs) = north_va fs
  ∧ south_va (updates sorter ws fs) = south_va fs
  ∧ historical_p90 (updates sorter ws fs) = historical_p90 fs
  ∧ (north_va fs = None → south_va fs = None →
     north_rate (updates sorter ws fs) = north_rate fs
     ∧ south_rate (updates sorter ws fs) = south_rate fs
     ∧ high_flow_summary (updates sorter ws fs) = high_flow_summary fs)
  ∧ (∀ w, gauge_data (updates sorter (ws ++ [w]) fs)
          = Store.main (now_load w) (now_append w) (service w)
              (gauge_data (updates sorter ws fs))).
Proof.
intros sorter ws fs.
assert (∀ w, gauge_data (updates sorter (ws ++ [w]) fs)
             = Store.main (now_load w) (now_append w) (service w)
                 (gauge_data (updates sorter ws fs))) as Hgauge.
{ intros w. unfold updates. rewrite foldl_app. cbn [foldl].
  apply (update_files sorter w). }
assert (north_va (updates sorter ws fs) = north_va fs
        ∧ south_va (updates sorter ws fs) = south_va fs
        ∧ historical_p90 (updates sorter ws fs) = historical_p90 fs
        ∧ (north_va fs = None → south_va fs = None →
           north_rate (updates sorter ws fs) = north_rate fs
           ∧ south_rate (updates sorter ws fs) = south_rate fs
           ∧ high_flow_summary (updates sorter ws fs)
             = high_flow_summary fs)) as (Hn & Hs & Hh & Hnone);
  [|do 3 (split; [done|]); split; [exact Hnone|exact Hgauge]].
clear Hgauge. revert fs. unfold updates.
induction ws as [|w ws IH] using rev_ind; intros fs.
- simpl. repeat split; try done.
- rewrite foldl_app. cbn [foldl].
  destruct (IH fs) as (Hn & Hs & Hh & Hnone).
  set (mid := foldl (λ fs w, update sorter w fs) fs ws) in *.
  destruct (update_files sorter w mid)
    as (Hn' & Hs' & Hh' & Hg' & _ & Hnone').
  split; [by rewrite Hn'|]. split; [by rewrite Hs'|].
  split; [by rewrite Hh'|].
  intros HN HS. destruct (Hnone HN HS) as (H1 & H2 & H3).
  destruct Hnone' as (H1' & H2' & H3');
    [by rewrite Hn|by rewrite Hs|].
  by rewrite H1', H2', H3'.
Qed.

End Pipeline_facts.

(** ** What the rate-of-change file reports *)

Section Report_facts.
Import Frame.

Lemma StronglySorted_lookup {A} (R : relation A) (l : list A) (i j : nat)
  (x y : A) :
StronglySorted R l → (i < j)%nat → l !! i = Some x → l !! j = Some y →
R x y.
Proof.
intros Hs. revert i j. induction Hs as [|a l Hs IH Hall]; intros i j Hij.
- by rewrite lookup_nil.
- destruct i as [|i], j as [|j]; try lia; simpl.
  + intros [= <-] Hy. rewrite Forall_forall in Hall. apply Hall.
    by eapply list_elem_of_lookup_2.
  + apply IH. lia.
Qed.

(** X17.  The row reported for a site whose readings have distinct
  timestamps is its newest reading, and each percent change in it
  compares that reading with the one [w] samples before it in the
  site's series: with [n] readings, the cell of a label of [w] samples
  is [(flow_(n-1) - flow_(n-1-w)) / flow_(n-1-w) * 100] when [w < n],
  and null when the site has at most [w] readings. *)
Theorem reported_row_formula :
∀ (sorter : list Row → list Row) (df : list Row) (k : string)
  (o : Analyze.Result),
  timestamp_sorter sorter →
  NoDup (timestamp_utc <$> group_of k df) →
  o ∈ Analyze.compute_rate_of_change_with sorter df →
  Analyze.r_site_no o = Some k →
  let series := group_of k (sort_values_site_time df) in
  let n := length series in
  ∃ cur, last series = Some cur ∧
    Analyze.r_timestamp_utc o = timestamp_utc cur ∧
    Analyze.r_flow_cfs o = flow_cfs cur ∧
    ∀ (w : nat) (cell : float),
      (w = 12%nat ∧ cell = Analyze.r_pct_change_1h o)
      ∨ (w = 36%nat ∧ cell = Analyze.r_pct_change_3h o)
      ∨ (w = 72%nat ∧ cell = Analyze.r_pct_change_6h o) →
      ((n ≤ w)%nat → cell = nan) ∧
      (∀ prev, (w < n)%nat → series !! (n - 1 - w)%nat = Some prev →
               cell = ((flow_cfs cur - flow_cfs prev) / flow_cfs prev * 100)%float).
Proof.
intros sorter df k o Hs Hnd Ho Hk series n.
apply list_elem_of_fmap in Ho as (row & -> & Hrow). simpl in Hk.
pose proof Hrow as Hlast.
apply (latest_with_elem _ _ _ Hs) in Hrow as [Hrow _].
assert (row ∈ group_of k (Process.compute_rate_of_change df)) as Hin
  by (by apply list_elem_of_filter).
apply list_elem_of_lookup in Hin as [i Hi].
assert (∀ label w, (label, w) ∈ RateOfChange.WINDOWS →
          ∃ cur, series !! i = Some cur ∧
            timestamp_utc row = timestamp_utc cur ∧
            flow_cfs row = flow_cfs cur ∧
            Analyze.column (RateOfChange.column_name label) row
            = (let b := if decide (i < w)%nat then nan
                        else default nan (flows series !! (i - w)%nat) in
               (flow_cfs cur - b) / b * 100)%float) as Hcell.
{ intros label w Hw.
  destruct (pct_cell df k i row label w Hi Hw)
    as (cur & Hcur & _ & _ & Ht & Hf & Hd).
  exists cur. repeat split; try done. unfold Analyze.column. by rewrite Hd. }
destruct (Hcell "1h" 12%nat ltac:(left)) as (cur & Hcur & Ht & Hf & _).
assert (i < n)%nat as Hlt by (by eapply lookup_lt_Some).
(* the row is the last of the series *)
assert (i = (n - 1)%nat) as ->.
{ destruct (decide (i = (n - 1)%nat)) as [|Hne]; [done|exfalso].
  destruct (lookup_lt_is_Some_2 series (n - 1)%nat) as [top Htop]; [lia|].
  assert (Time.leb (timestamp_utc cur) (timestamp_utc top) = true) as H1.
  { apply (StronglySorted_lookup
             (λ r1 r2, Time.leb (timestamp_utc r1) (timestamp_utc r2) = true)
             series i (n - 1)%nat); [apply group_of_sorted|lia|done..]. }
  assert (Time.leb (timestamp_utc top) (timestamp_utc cur) = true) as H2.
  { assert (top ∈ sort_values_site_time df ∧ site_no top = Some k)
      as [Htop' Hktop].
    { apply list_elem_of_lookup_2 in Htop.
      by apply list_elem_of_filter in Htop as [? ?]. }
    apply elem_of_stable_sort in Htop'.
    apply rate_frame_of_elem in Htop' as (row' & Hrow' & Heq).
    apply without_derived_fields in Heq as (Hs' & _ & Ht' & _).
    assert (StronglySorted (λ r1 r2, time_leb r1 r2 = true)
              (sorter (Process.compute_rate_of_change df))) as Hss.
    { apply Sorted_StronglySorted; [apply _|]. apply Hs. }
    assert (row' ∈ sorter (Process.compute_rate_of_change df)) as Hin'
      by (by rewrite (proj1 (Hs _))).
    pose proof (groupby_tail1_last (λ r1 r2, time_leb r1 r2 = true)
                  _ row row' Hss Hlast Hin' ltac:(congruence)) as Hle.
    unfold time_leb in Hle. congruence. }
  assert (timestamp_utc cur = timestamp_utc top) as Heq.
  { destruct (timestamp_utc cur), (timestamp_utc top); simpl in *;
      try done. f_equal. lia. }
  assert (NoDup (timestamp_utc <$> series)) as Hnd'.
  { unfold series. rewrite group_of_sort_commute.
    unfold sort_values_site_time. by rewrite stable_sort_perm. }
  assert (i = (n - 1)%nat); [|done].
  apply (NoDup_lookup _ i (n - 1)%nat (timestamp_utc cur) Hnd');
    rewrite list_lookup_fmap; [by rewrite Hcur|by rewrite Htop, Heq]. }
exists cur. split.
{ rewrite last_lookup. by replace (pred (length series)) with (n - 1)%nat by lia. }
split; [done|].
split; [done|].
intros w cell Hw.
assert (∃ label, (label, w) ∈ RateOfChange.WINDOWS ∧
                 cell = Analyze.column (RateOfChange.column_name label) row)
  as (label & Hin & ->).
{ destruct Hw as [[-> ->]|[[-> ->]|[-> ->]]].
  - exists "1h". split; [left|done].
  - exists "3h". split; [right; left|done].
  - exists "6h". split; [do 2 right; left|done]. }
destruct (Hcell label w Hin) as (cur' & Hcur' & _ & _ & Hval).
rewrite Hcur in Hcur'. injection Hcur' as <-. rewrite Hval. simpl.
split.
- intros Hle. rewrite decide_True by lia. apply pct_of_null_earlier.
- intros prev Hlt' Hprev. rewrite decide_False by lia.
  unfold flows. by rewrite list_lookup_fmap, Hprev.
Qed.

Lemma reported_row_formula_witness :
∃ o cur prev,
  Analyze.compute_rate_of_change_with sort_values_time series_X1 = [o] ∧
  last (group_of "X1" (sort_values_site_time series_X1)) = Some cur ∧
  group_of "X1" (sort_values_site_time series_X1) !! 60%nat = Some prev ∧
  Analyze.r_pct_change_1h o
  = ((flow_cfs cur - flow_cfs prev) / flow_cfs prev * 100)%float.
Proof.
assert (∃ o, Analyze.compute_rate_of_change_with sort_values_time series_X1
             = [o]) as [o Ho]
  by (vm_compute; eexists; reflexivity).
assert (∃ prev, group_of "X1" (sort_values_site_time series_X1) !! 60%nat
                = Some prev) as [prev Hprev]
  by (vm_compute; eexists; reflexivity).
assert (o ∈ Analyze.compute_rate_of_change_with sort_values_time series_X1)
  as Hin by (rewrite Ho; left).
assert (Analyze.r_site_no o = Some "X1") as Hk.
{ assert (Analyze.r_site_no
            <$> Analyze.compute_rate_of_change_with sort_values_time series_X1
          = [Some "X1"]) as Hs by (by vm_compute).
  rewrite Ho in Hs. by injection Hs. }
assert (NoDup (timestamp_utc <$> group_of "X1" series_X1)) as Hnd.
{ refine (bool_decide_unpack _ _). by vm_compute. }
assert (length (group_of "X1" (sort_values_site_time series_X1))
        = 73%nat) as Hlen by (by vm_compute).
pose proof (reported_row_formula sort_values_time series_X1 "X1" o
              sort_values_time_sorter Hnd Hin Hk) as HH.
cbv zeta in HH. rewrite Hlen in HH.
destruct HH as (cur & Hcur & _ & _ & Hcells).
exists o, cur, prev. split; [exact Ho|]. split; [exact Hcur|].
split; [exact Hprev|].
destruct (Hcells 12%nat (Analyze.r_pct_change_1h o)) as [_ Hval].
{ left. split; reflexivity. }
apply Hval; [lia|exact Hprev].
Defined.

End Report_facts.

(** ** Readings that cannot be compared *)

Section Null_reading_facts.
Import Frame.

Lemma assign_transform_go_no_site name f whole (r : Row) :
∀ rest seen,
  r ∈ zip_with (λ r v, set_derived (<[name := v]>) r) rest
        (transform_go f whole seen rest) →
  site_no r = None →
  ∃ r0, r0 ∈ rest ∧ site_no r0 = None ∧ r = set_derived (<[name := nan]>) r0.
Proof.
induction rest as [|a rest IH]; intros seen; simpl.
- by intros ?%elem_of_nil.
- intros [->|Hin]%elem_of_cons Hs.
  + exists a. split; [left|]. split; [done|].
    unfold transform_cell. simpl in Hs. by rewrite Hs.
  + destruct (IH _ Hin Hs) as (r0 & ? & ? & ?).
    exists r0. split; [by right|done].
Qed.

Lemma column_names_distinct :
RateOfChange.column_name "1h" ≠ RateOfChange.column_name "3h"
∧ RateOfChange.column_name "1h" ≠ RateOfChange.column_name "6h"
∧ RateOfChange.column_name "3h" ≠ RateOfChange.column_name "6h".
Proof. by repeat split. Qed.

(** X18.  A reading that has no site number, or whose flow is null,
  receives null in each of the three percent-change columns, whatever
  the other readings are. *)
Theorem uncomparable_reading_cells_null :
∀ (df : list Row) (r : Row) (label : string) (w : nat),
  r ∈ Process.compute_rate_of_change df →
  (label, w) ∈ RateOfChange.WINDOWS →
  site_no r = None ∨ F64.is_null (flow_cfs r) = true →
  derived r !! RateOfChange.column_name label = Some nan.
Proof.
intros df r label w Hr Hw Hcase.
destruct (site_no r) as [k|] eqn:Hk.
- destruct Hcase as [|Hnull]; [done|].
  apply F64_facts.is_null_spec in Hnull.
  assert (r ∈ group_of k (Process.compute_rate_of_change df)) as Hin
    by (by apply list_elem_of_filter).
  apply list_elem_of_lookup in Hin as [i Hi].
  destruct (pct_cell df k i r label w Hi Hw)
    as (cur & _ & _ & _ & _ & Hf & ->).
  rewrite <- Hf, Hnull. simpl.
  by rewrite F64_facts.sub_nan_l, F64_facts.div_nan_l, F64_facts.mul_nan_l.
- clear Hcase. unfold Process.compute_rate_of_change in Hr.
  unfold RateOfChange.add_pct_changes, RateOfChange.WINDOWS in Hr.
  cbn [foldl] in Hr. unfold assign, transform in Hr.
  apply assign_transform_go_no_site in Hr as (r2 & Hr2 & Hk2 & ->); [|done].
  apply assign_transform_go_no_site in Hr2 as (r1 & Hr1 & Hk1 & ->); [|done].
  apply assign_transform_go_no_site in Hr1 as (r0 & _ & _ & ->); [|done].
  destruct column_names_distinct as (H13 & H16 & H36).
  unfold set_derived; simpl.
  unfold RateOfChange.WINDOWS in Hw.
  apply elem_of_cons in Hw as [[= -> ->]|Hw].
  { rewrite lookup_insert_ne by done. rewrite lookup_insert_ne by done.
    by rewrite lookup_insert_eq. }
  apply elem_of_cons in Hw as [[= -> ->]|Hw].
  { rewrite lookup_insert_ne by done. by rewrite lookup_insert_eq. }
  apply elem_of_cons in Hw as [[= -> ->]|Hw]; [|by apply elem_of_nil in Hw].
  by rewrite lookup_insert_eq.
Qed.

Lemma uncomparable_reading_cells_null_witness :
∃ r, r ∈ Process.compute_rate_of_change
           [reading "X1" 0 10; reading "X1" (Time.minutes 5) nan]
     ∧ flow_cfs r = nan
     ∧ derived r !! RateOfChange.column_name "1h" = Some nan.
Proof.
assert (∃ r, Process.compute_rate_of_change
               [reading "X1" 0 10; reading "X1" (Time.minutes 5) nan] !! 1%nat
             = Some r) as [r Hr] by (vm_compute; eexists; reflexivity).
assert (flow_cfs <$> Process.compute_rate_of_change
          [reading "X1" 0 10; reading "X1" (Time.minutes 5) nan] !! 1%nat
        = Some nan) as Hf by (by vm_compute).
rewrite Hr in Hf. injection Hf as Hf.
exists r. split; [by eapply list_elem_of_lookup_2|]. split; [exact Hf|].
apply (uncomparable_reading_cells_null
         [reading "X1" 0 10; reading "X1" (Time.minutes 5) nan] r "1h" 12%nat).
- by eapply list_elem_of_lookup_2.
- left.
- right. by rewrite Hf.
Defined.

End Null_reading_facts.

(** ** One run of fetch_data.py *)


